(** * project-sys: game-state and event-selection core

    A shallow embedding of [src/js/gameState.js] (class [GameState]), of
    the class [EventSystem] of [src/js/eventSystem.js] and of the state
    changes of a turn in [src/js/main.js], followed by the properties of
    the specification that concern them and by further properties of the
    code.

    Conventions of the embedding.
    - The numeric fields of the game (day, affection, money, streak, the
      configuration values, the deltas of an event) are integers in the data
      model; they are embedded as [Z].
    - An object property that may be missing is an [option]: [None] is the
      missing property ([undefined]), [Some n] the property holding [n].
    - [Math.random()] is an explicit argument: a rational [r] with
      [0 <= r < 1].  Products with it are taken exactly in [Q]; the
      ranges, memberships and invariants stated hold whichever entry or
      integer a draw next to a rounding boundary selects.
    - Methods that mutate [this] return the new object. *)

From Stdlib Require Import ZArith QArith Qround List String Bool Lia.
Import ListNotations.

Open Scope Z_scope.

(** ** JavaScript operators used by the two classes *)

Module Js.

(** Truthiness of an optional numeric property: a missing property and the
    number 0 are falsy, every other integer is truthy. *)
Definition truthy (v : option Z) : bool :=
  match v with
  | Some n => negb (n =? 0)
  | None => false
  end.

(** [v || d] where [v] is an optional numeric property. *)
Definition or_num (v : option Z) (d : Z) : Z :=
  if truthy v then match v with Some n => n | None => d end else d.

(** A value returned by [Math.random()]. *)
Definition unit_range (r : Q) : Prop := (0 <= r)%Q /\ (r < 1)%Q.

(** [Math.floor(Math.random() * n)] for the draw [r].  The product is
    exact here and a rounded double in the code, so for a draw next to a
    boundary the two can differ by one; both lie in [0, n - 1]. *)
Definition random_floor (r : Q) (n : Z) : Z := Qfloor (r * inject_Z n).

End Js.

(** ** The configuration object *)

Module Config.

Record t : Type := mk {
  goal_money : Z;
  affection_threshold : Z;
  max_days : Z;
  bad_end_threshold : Z;
  initial_affection : Z;
  work_base_income : Z;
  work_income_variation : Z;
  play_affection_base : Z;
  play_affection_variation : Z
}.

(** A configuration object as a caller passes it: any subset of the keys. *)
Record patch : Type := mk_patch {
  p_goal_money : option Z;
  p_affection_threshold : option Z;
  p_max_days : option Z;
  p_bad_end_threshold : option Z;
  p_initial_affection : option Z;
  p_work_base_income : option Z;
  p_work_income_variation : option Z;
  p_play_affection_base : option Z;
  p_play_affection_variation : option Z
}.

Definition empty : patch :=
  mk_patch None None None None None None None None None.

(** The defaults of the constructor. *)
Definition defaults : t :=
  {| goal_money := 100000;
     affection_threshold := 70;
     max_days := 30;
     bad_end_threshold := 10;
     initial_affection := 30;
     work_base_income := 5000;
     work_income_variation := 2000;
     play_affection_base := 5;
     play_affection_variation := 3 |}.

Definition override (new : option Z) (old : Z) : Z :=
  match new with Some v => v | None => old end.

(** [Object.assign(c, p)]: every key present in [p] replaces that of [c]. *)
Definition assign (c : t) (p : patch) : t :=
  {| goal_money := override (p_goal_money p) (goal_money c);
     affection_threshold :=
       override (p_affection_threshold p) (affection_threshold c);
     max_days := override (p_max_days p) (max_days c);
     bad_end_threshold :=
       override (p_bad_end_threshold p) (bad_end_threshold c);
     initial_affection :=
       override (p_initial_affection p) (initial_affection c);
     work_base_income :=
       override (p_work_base_income p) (work_base_income c);
     work_income_variation :=
       override (p_work_income_variation p) (work_income_variation c);
     play_affection_base :=
       override (p_play_affection_base p) (play_affection_base c);
     play_affection_variation :=
       override (p_play_affection_variation p)
                (play_affection_variation c) |}.

(** [{ ...c }]: a copy in which every key is present. *)
Definition spread (c : t) : patch :=
  {| p_goal_money := Some (goal_money c);
     p_affection_threshold := Some (affection_threshold c);
     p_max_days := Some (max_days c);
     p_bad_end_threshold := Some (bad_end_threshold c);
     p_initial_affection := Some (initial_affection c);
     p_work_base_income := Some (work_base_income c);
     p_work_income_variation := Some (work_income_variation c);
     p_play_affection_base := Some (play_affection_base c);
     p_play_affection_variation := Some (play_affection_variation c) |}.

End Config.

(** ** Plain objects exchanged with the callers *)

(** The effect object [{affection_delta, money_delta}] that [applyAction]
    receives; [{}] is [Effects.none]. *)
Module Effects.

Record t : Type := mk {
  affection_delta : option Z;
  money_delta : option Z
}.

Definition none : t := mk None None.

End Effects.

(** The state object [{day, affection, money, consecutive_none, config}]
    produced by [getState] and consumed by [setState]. *)
Module Snapshot.

Record t : Type := mk {
  day : option Z;
  affection : option Z;
  money : option Z;
  consecutive_none : option Z;
  config : option Config.patch
}.

End Snapshot.

(** ** class GameState *)

Module GameState.

Record t : Type := mk {
  config : Config.t;
  day : Z;
  affection : Z;
  money : Z;
  consecutive_none : Z
}.

Definition set_day (g : t) (v : Z) : t :=
  mk (config g) v (affection g) (money g) (consecutive_none g).
Definition set_affection (g : t) (v : Z) : t :=
  mk (config g) (day g) v (money g) (consecutive_none g).
Definition set_money (g : t) (v : Z) : t :=
  mk (config g) (day g) (affection g) v (consecutive_none g).
Definition set_consecutive_none (g : t) (v : Z) : t :=
  mk (config g) (day g) (affection g) (money g) v.
Definition set_config (g : t) (c : Config.t) : t :=
  mk c (day g) (affection g) (money g) (consecutive_none g).

(** [constructor(config = {})] *)
Definition constructor (cfg : Config.patch) : t :=
  let c := Config.assign Config.defaults cfg in
  {| config := c;
     day := 1;
     affection := Config.initial_affection c;
     money := 0;
     consecutive_none := 0 |}.

(** [resetConsecutiveNone()] *)
Definition resetConsecutiveNone (g : t) : t := set_consecutive_none g 0.

(** [const affectionGain] of the 'play' case, for the draw [r]. *)
Definition affectionGain (c : Config.t) (r : Q) : Z :=
  Config.play_affection_base c
  + Js.random_floor r (Config.play_affection_variation c * 2 + 1)
  - Config.play_affection_variation c.

(** [const moneyGain] of the 'work' case, for the draw [r]. *)
Definition moneyGain (c : Config.t) (r : Q) : Z :=
  Config.work_base_income c
  + Js.random_floor r (Config.work_income_variation c * 2 + 1)
  - Config.work_income_variation c.

(** The [switch (actionType)] of [applyAction]; the default case only
    logs a warning. *)
Definition actionSwitch (g : t) (actionType : string) (r : Q) : t :=
  if (actionType =? "play")%string then
    resetConsecutiveNone
      (set_affection g
         (Z.min 100 (affection g + Z.max 3 (affectionGain (config g) r))))
  else if (actionType =? "work")%string then
    resetConsecutiveNone
      (set_money g
         (money g + Z.max 4000 (Z.min 7000 (moneyGain (config g) r))))
  else if (actionType =? "none")%string then
    set_consecutive_none g (consecutive_none g + 1)
  else g.

(** The two [if (eventData. ...)] statements that close [applyAction]. *)
Definition eventEffects (g : t) (eventData : Effects.t) : t :=
  let g1 :=
    if Js.truthy (Effects.affection_delta eventData) then
      set_affection g
        (Z.max 0 (Z.min 100
           (affection g + Js.or_num (Effects.affection_delta eventData) 0)))
    else g in
  if Js.truthy (Effects.money_delta eventData) then
    set_money g1
      (Z.max 0 (money g1 + Js.or_num (Effects.money_delta eventData) 0))
  else g1.

(** [applyAction(actionType, eventData = {})]; [r] is the value that
    [Math.random()] returns if the action draws one. *)
Definition applyAction
    (g : t) (actionType : string) (eventData : Effects.t) (r : Q) : t :=
  eventEffects (actionSwitch g actionType r) eventData.

(** [incrementDay()] *)
Definition incrementDay (g : t) : t :=
  if day g <? Config.max_days (config g) then set_day g (day g + 1) else g.

(** [updateConfig(newConfig)] *)
Definition updateConfig (g : t) (newConfig : Config.patch) : t :=
  set_config g (Config.assign (config g) newConfig).

(** [getState()] *)
Definition getState (g : t) : Snapshot.t :=
  {| Snapshot.day := Some (day g);
     Snapshot.affection := Some (affection g);
     Snapshot.money := Some (money g);
     Snapshot.consecutive_none := Some (consecutive_none g);
     Snapshot.config := Some (Config.spread (config g)) |}.

(** [setState(state)]: the four assignments read [this.config] as it is
    on entry; [state.config] is merged afterwards. *)
Definition setState (g : t) (state : Snapshot.t) : t :=
  let c := config g in
  let g1 :=
    {| config := c;
       day :=
         Z.max 1 (Z.min (Config.max_days c)
                        (Js.or_num (Snapshot.day state) 1));
       affection :=
         Z.max 0 (Z.min 100
                    (Js.or_num (Snapshot.affection state)
                               (Config.initial_affection c)));
       money := Z.max 0 (Js.or_num (Snapshot.money state) 0);
       consecutive_none :=
         Z.max 0 (Js.or_num (Snapshot.consecutive_none state) 0) |} in
  match Snapshot.config state with
  | Some cfg => updateConfig g1 cfg
  | None => g1
  end.

(** [checkEndingCondition()]; [None] is the [null] of a running game. *)
Definition checkEndingCondition (g : t) : option string :=
  let c := config g in
  if consecutive_none g >=? Config.bad_end_threshold c then Some "bad_end"%string
  else if day g >=? Config.max_days c then
    if (affection g >=? Config.affection_threshold c)
       && (money g >=? Config.goal_money c)
    then Some "perfect_end"%string
    else if money g >=? Config.goal_money c then Some "money_end"%string
    else if affection g >=? Config.affection_threshold c
    then Some "affection_end"%string
    else Some "normal_end"%string
  else None.

(** [isGameOver()] *)
Definition isGameOver (g : t) : bool :=
  match checkEndingCondition g with Some _ => true | None => false end.

(** [validateState()] *)
Definition validateState (g : t) : bool :=
  (day g >=? 1) && (day g <=? Config.max_days (config g))
  && (affection g >=? 0) && (affection g <=? 100)
  && (money g >=? 0)
  && (consecutive_none g >=? 0).

(** What the lookup [endingNames[endingType]] can yield: one of the five
    names of the literal, a member that every object inherits from
    [Object.prototype] (a function or an object, never a string), or
    nothing. *)
Inductive Looked : Type :=
| Own (name : string)
| Inherited
| Missing.

(** The property names of [Object.prototype]. *)
Definition prototypeKeys : list string :=
  ["constructor"; "hasOwnProperty"; "isPrototypeOf"; "propertyIsEnumerable";
   "toLocaleString"; "toString"; "valueOf"; "__proto__";
   "__defineGetter__"; "__defineSetter__"; "__lookupGetter__";
   "__lookupSetter__"]%string.

(** [const endingNames = {...}] *)
Definition endingNames : list (string * string) :=
  [("perfect_end", "理想の共存エンド");
   ("money_end", "夢を叶えるエンド");
   ("affection_end", "心でつながるエンド");
   ("normal_end", "通常失敗エンド");
   ("bad_end", "空白エンド")]%string.

Fixpoint assoc (key : string) (l : list (string * string)) : option string :=
  match l with
  | [] => None
  | (k, v) :: rest => if (k =? key)%string then Some v else assoc key rest
  end.

(** [endingNames[endingType]] *)
Definition lookupEndingName (endingType : string) : Looked :=
  match assoc endingType endingNames with
  | Some name => Own name
  | None =>
      if existsb (fun k => (k =? endingType)%string) prototypeKeys
      then Inherited else Missing
  end.

(** The value [getEndingName] returns: a string, or the inherited member
    that the lookup found, which is truthy and passes [||] as it is. *)
Inductive EndingName : Type :=
| Name (name : string)
| Member.

(** [getEndingName(endingType)] *)
Definition getEndingName (endingType : string) : EndingName :=
  match lookupEndingName endingType with
  | Own name => Name name
  | Inherited => Member
  | Missing => Name "不明なエンディング"%string
  end.

End GameState.

(** ** class EventSystem *)

Module EventSystem.

(** An event record of the catalog.  [weight] is a number that the
    selection multiplies by 1.2, hence a rational. *)
Record Event : Type := mkEvent {
  id : string;
  type : string;
  weight : Q;
  text : list string;
  affection_delta : option Z;
  money_delta : option Z;
  affection_min : option Z;
  affection_max : option Z;
  money_min : option Z;
  money_max : option Z;
  day_specific : option Z;
  special : bool
}.

Record t : Type := mk {
  events : list Event;
  isLoaded : bool
}.

(** [{ ...event, weight: w }] *)
Definition with_weight (e : Event) (w : Q) : Event :=
  mkEvent (id e) (type e) w (text e) (affection_delta e) (money_delta e)
          (affection_min e) (affection_max e) (money_min e) (money_max e)
          (day_specific e) (special e).

(** The arrow function mapped over a 'play' list.  The factor is exactly
    12/10 here; the code multiplies by the double 1.2 and rounds, so the
    weight of its copy can differ in the last bit.  Nothing below states
    the value of an adjusted weight. *)
Definition adjust (e : Event) : Event :=
  with_weight e (if special e then weight e * (12 # 10) else weight e)%Q.

(** The [for ... of] loop of [selectWeightedRandom]: the first event at
    which the running remainder is no longer positive; [None] when the
    loop runs to its end.  The remainder is exact here and a rounded double
    in the code, so next to a boundary the code can stop at a neighbouring
    entry or run to the end; the properties below state only what holds
    of every entry the loop or its fallback can return. *)
Fixpoint scan (evs : list Event) (randomValue : Q) : option Event :=
  match evs with
  | [] => None
  | e :: rest =>
      let randomValue' := (randomValue - weight e)%Q in
      if Qle_bool randomValue' 0 then Some e else scan rest randomValue'
  end.

(** [events[i]]: nothing at an index outside the array. *)
Definition index (evs : list Event) (i : Z) : option Event :=
  if i <? 0 then None else nth_error evs (Z.to_nat i).

(** [selectWeightedRandom(events)]; [None] stands for [null] and for the
    [undefined] of an index outside the array. *)
Definition selectWeightedRandom (evs : list Event) (r : Q) : option Event :=
  match evs with
  | [] => None
  | first :: _ =>
      let adjustedEvents :=
        if (type first =? "play")%string then map adjust evs else evs in
      let totalWeight :=
        fold_left (fun sum e => (sum + weight e)%Q) adjustedEvents 0%Q in
      if Qle_bool totalWeight 0 then
        index evs (Js.random_floor r (Z.of_nat (List.length evs)))
      else
        match scan adjustedEvents (r * totalWeight)%Q with
        | Some e => Some e
        | None =>
            index adjustedEvents
                  (Z.of_nat (List.length adjustedEvents) - 1)
        end
  end.

(** [event.day_specific && event.day_specific === day] *)
Definition isDaySpecific (day : Z) (e : Event) : bool :=
  Js.truthy (day_specific e)
  && match day_specific e with Some d => d =? day | None => false end.

(** [pickEvent(type, day)] *)
Definition pickEvent (es : t) (ty : string) (day : Z) (r : Q)
  : option Event :=
  if negb (isLoaded es) then None
  else
    let typeEvents := filter (fun e => (type e =? ty)%string) (events es) in
    match typeEvents with
    | [] => None
    | _ :: _ =>
        let daySpecificEvents := filter (isDaySpecific day) typeEvents in
        if (0 <? Z.of_nat (List.length daySpecificEvents)) then
          selectWeightedRandom daySpecificEvents r
        else
          let normalEvents :=
            filter (fun e => negb (Js.truthy (day_specific e))) typeEvents in
          selectWeightedRandom normalEvents r
    end.

(** [getRandomVariation(base, min, max)] *)
Definition getRandomVariation (base min max : Z) (r : Q) : Z :=
  if min =? max then base
  else
    let actualMin := Z.min min max in
    let actualMax := Z.max min max in
    Js.random_floor r (actualMax - actualMin + 1) + actualMin.

(** [calculateEventEffects(event)].  The two calls of
    [getRandomVariation] draw at most one random number each: [ra] for the
    affection and [rm] for the money. *)
Definition calculateEventEffects (event : option Event) (ra rm : Q)
  : Effects.t :=
  match event with
  | None => {| Effects.affection_delta := Some 0;
               Effects.money_delta := Some 0 |}
  | Some e =>
      {| Effects.affection_delta :=
           Some (getRandomVariation
                   (Js.or_num (affection_delta e) 0)
                   (Js.or_num (affection_min e)
                              (Js.or_num (affection_delta e) 0))
                   (Js.or_num (affection_max e)
                              (Js.or_num (affection_delta e) 0))
                   ra);
         Effects.money_delta :=
           Some (getRandomVariation
                   (Js.or_num (money_delta e) 0)
                   (Js.or_num (money_min e) (Js.or_num (money_delta e) 0))
                   (Js.or_num (money_max e) (Js.or_num (money_delta e) 0))
                   rm) |}
  end.

(** [isReady()] *)
Definition isReady (es : t) : bool :=
  isLoaded es && (0 <? Z.of_nat (List.length (events es))).

(** [getFallbackEvents()] *)
Definition getFallbackEvents : list Event :=
  [ {| id := "play_fallback_1"; type := "play"; weight := 5;
       text := ["しすと一緒に映画を見ました。"; "楽しい時間を過ごせました。"]%string;
       affection_delta := Some 5; money_delta := Some 0;
       affection_min := None; affection_max := None;
       money_min := None; money_max := None;
       day_specific := None; special := false |};
    {| id := "play_fallback_2"; type := "play"; weight := 3;
       text := ["しすと散歩に出かけました。"; "いい気分転換になりました。"]%string;
       affection_delta := Some 4; money_delta := Some 0;
       affection_min := None; affection_max := None;
       money_min := None; money_max := None;
       day_specific := None; special := true |};
    {| id := "work_fallback_1"; type := "work"; weight := 5;
       text := ["今日も一日お疲れさまでした。";
                "しっかりと稼ぐことができました。"]%string;
       affection_delta := Some 0; money_delta := Some 5000;
       affection_min := None; affection_max := None;
       money_min := None; money_max := None;
       day_specific := None; special := false |};
    {| id := "work_fallback_2"; type := "work"; weight := 3;
       text := ["残業をしました。"; "少し疲れましたが、収入は良好です。"]%string;
       affection_delta := Some (-1); money_delta := Some 6000;
       affection_min := None; affection_max := None;
       money_min := None; money_max := None;
       day_specific := None; special := false |};
    {| id := "none_fallback_1"; type := "none"; weight := 5;
       text := ["今日は何もせずに過ごしました。";
                "のんびりとした一日でした。"]%string;
       affection_delta := Some 0; money_delta := Some 0;
       affection_min := None; affection_max := None;
       money_min := None; money_max := None;
       day_specific := None; special := false |};
    {| id := "none_fallback_2"; type := "none"; weight := 3;
       text := ["ぼーっと時間を過ごしました。";
                "特に何も起こりませんでした。"]%string;
       affection_delta := Some (-1); money_delta := Some 0;
       affection_min := None; affection_max := None;
       money_min := None; money_max := None;
       day_specific := None; special := false |} ].

(** What [fetch] and [response.json()] hand to [loadEvents].  [Failed]
    covers every way into the [catch] block: [fetch] rejects, the status is
    not ok, the body is no JSON, or the document is [null] so that reading
    [data.events] throws.  [Document evs] is a parsed document whose
    [events] key holds the array [evs], or is missing ([None]). *)
Inductive Fetched : Type :=
| Failed
| Document (evs : option (list Event)).

(** [new EventSystem()] *)
Definition newEventSystem : t := {| events := []; isLoaded := false |}.

(** [loadEvents()], once the promise has settled: the object as it is then
    and the boolean the promise resolves to. *)
Definition loadEvents (es : t) (f : Fetched) : t * bool :=
  match f with
  | Document evs =>
      ({| events := match evs with Some l => l | None => [] end;
          isLoaded := true |}, true)
  | Failed => ({| events := getFallbackEvents; isLoaded := true |}, false)
  end.

(** [getEventCount(type)] *)
Definition getEventCount (es : t) (ty : string) : Z :=
  if negb (isLoaded es) then 0
  else Z.of_nat
         (List.length (filter (fun e => (type e =? ty)%string) (events es))).

(** [getAllEvents()] *)
Definition getAllEvents (es : t) : list Event := events es.

End EventSystem.

(** ** main.js: the state changes of one turn *)

(** The parts of [handlePlayerAction] and [finishDay] that read or change
    the game state; screens, sounds and texts are left out.  The game of
    [main.js] is always [new GameState()]. *)
Module Main.

(** The random numbers one call of [handlePlayerAction] may draw, in the
    order of the calls: the selection, the two effect ranges, the action. *)
Record Draws : Type := mkDraws {
  pick_draw : Q;
  affection_draw : Q;
  money_draw : Q;
  action_draw : Q
}.

(** [handlePlayerAction(actionType)], up to the call of [applyAction]. *)
Definition handlePlayerAction
    (es : EventSystem.t) (g : GameState.t) (actionType : string) (d : Draws)
  : GameState.t :=
  match EventSystem.pickEvent es actionType (GameState.day g) (pick_draw d)
  with
  | Some event =>
      let effects :=
        EventSystem.calculateEventEffects
          (Some event) (affection_draw d) (money_draw d) in
      GameState.applyAction g actionType effects (action_draw d)
  | None => GameState.applyAction g actionType Effects.none (action_draw d)
  end.

(** What [finishDay] does after advancing the day. *)
Inductive DayOutcome : Type :=
| ShowEnding (endingType : option string)
| NextDay.

(** [finishDay()]: the thresholds 10 and 30 are written in the function. *)
Definition finishDay (g : GameState.t) : GameState.t * DayOutcome :=
  let g' := GameState.incrementDay g in
  if GameState.consecutive_none g' >=? 10 then
    (g', ShowEnding (Some "bad_end"%string))
  else if GameState.day g' >=? 30 then
    (g', ShowEnding (GameState.checkEndingCondition g'))
  else (g', NextDay).

End Main.

(** ** Sample events and catalogs *)

Import GameState.
Import EventSystem.

(** An event whose affection bounds are both 5 and whose base delta is 3. *)
Definition equal_bounds_event : Event :=
  {| id := "sample"; type := "play"; weight := 1; text := [];
     affection_delta := Some 3; money_delta := None;
     affection_min := Some 5; affection_max := Some 5;
     money_min := None; money_max := None;
     day_specific := None; special := false |}.

(** An event whose lower affection bound is 0, with the upper bound 8 and
    the base delta 10. *)
Definition zero_bound_event : Event :=
  {| id := "zero"; type := "play"; weight := 1; text := [];
     affection_delta := Some 10; money_delta := None;
     affection_min := Some 0; affection_max := Some 8;
     money_min := None; money_max := None;
     day_specific := None; special := false |}.

(** An event with the bounds 2 and 8 on the affection and equal bounds on
    the money. *)
Definition ranged_event : Event :=
  {| id := "ranged"; type := "play"; weight := 1; text := [];
     affection_delta := Some 5; money_delta := Some (-300);
     affection_min := Some 2; affection_max := Some 8;
     money_min := Some (-500); money_max := Some (-500);
     day_specific := None; special := false |}.

(** A catalog with a 'play' event bound to day 0 and a generic one. *)
Definition day_zero_event : Event :=
  {| id := "bound"; type := "play"; weight := 1; text := [];
     affection_delta := Some 1; money_delta := None;
     affection_min := None; affection_max := None;
     money_min := None; money_max := None;
     day_specific := Some 0; special := false |}.

Definition generic_event : Event :=
  {| id := "generic"; type := "play"; weight := 1; text := [];
     affection_delta := Some 1; money_delta := None;
     affection_min := None; affection_max := None;
     money_min := None; money_max := None;
     day_specific := None; special := false |}.

Definition day_zero_catalog : EventSystem.t :=
  {| events := [day_zero_event; generic_event]; isLoaded := true |}.

(** A catalog with two 'play' events bound to day 5, one of them special,
    and a generic one. *)
Definition day_five_special : Event :=
  {| id := "festival"; type := "play"; weight := 2; text := [];
     affection_delta := Some 10; money_delta := None;
     affection_min := None; affection_max := None;
     money_min := None; money_max := None;
     day_specific := Some 5; special := true |}.

Definition day_five_plain : Event :=
  {| id := "picnic"; type := "play"; weight := 1; text := [];
     affection_delta := Some 4; money_delta := None;
     affection_min := None; affection_max := None;
     money_min := None; money_max := None;
     day_specific := Some 5; special := false |}.

Definition day_five_catalog : EventSystem.t :=
  {| events := [generic_event; day_five_special; day_five_plain];
     isLoaded := true |}.

(** * Properties *)


(** ** Helper facts *)

(** [Math.floor(Math.random() * n)] lies in [0, n - 1] for a positive
    integer [n]. *)
Lemma random_floor_range (r : Q) (n : Z) :
  Js.unit_range r -> 0 < n -> 0 <= Js.random_floor r n < n.
Proof.
  intros [Hlo Hhi] Hn. unfold Js.random_floor.
  assert (Hq : (0 < inject_Z n)%Q).
  { change (inject_Z 0 < inject_Z n)%Q. rewrite <- Zlt_Qlt. exact Hn. }
  split.
  - change 0 with (Qfloor 0). apply Qfloor_resp_le.
    apply Qmult_le_0_compat; [exact Hlo | apply Qlt_le_weak; exact Hq].
  - assert (Hlt : (r * inject_Z n < inject_Z n)%Q).
    { setoid_replace (inject_Z n) with (1 * inject_Z n)%Q at 2 by ring.
      apply Qmult_lt_compat_r; assumption. }
    pose proof (Qfloor_le (r * inject_Z n)) as Hfl.
    rewrite Zlt_Qlt. eapply Qle_lt_trans; eassumption.
Qed.

Lemma or_num_present (n d : Z) : n <> 0 -> Js.or_num (Some n) d = n.
Proof.
  intros Hn. unfold Js.or_num, Js.truthy.
  destruct (Z.eqb_spec n 0); [contradiction | reflexivity].
Qed.

Lemma or_num_zero (d : Z) : Js.or_num (Some 0) d = d.
Proof. reflexivity. Qed.

Lemma or_num_missing (d : Z) : Js.or_num None d = d.
Proof. reflexivity. Qed.

(** The event deltas leave affection inside [0, 100] and money
    non-negative whenever they were so before. *)
Lemma eventEffects_ranges (g : GameState.t) (e : Effects.t) :
  (0 <= affection g <= 100 -> 0 <= affection (eventEffects g e) <= 100)
  /\ (0 <= money g -> 0 <= money (eventEffects g e))
  /\ consecutive_none (eventEffects g e) = consecutive_none g
  /\ day (eventEffects g e) = day g
  /\ config (eventEffects g e) = config g.
Proof.
  unfold eventEffects.
  destruct (Js.truthy (Effects.affection_delta e));
    destruct (Js.truthy (Effects.money_delta e)); cbn; repeat split; lia.
Qed.

(** ** Endings *)

(** C1. Whenever the streak of idle days has reached [bad_end_threshold],
    [checkEndingCondition] answers 'bad_end', whatever the day, the
    affection and the money are; the day-limit endings never win over it. *)
Theorem checkEndingCondition_bad_end_preempts (g : GameState.t) :
  consecutive_none g >= Config.bad_end_threshold (config g) ->
  checkEndingCondition g = Some "bad_end"%string.
Proof.
  intros H. unfold checkEndingCondition.
  destruct (Z.geb_spec (consecutive_none g)
                       (Config.bad_end_threshold (config g))) as [_ | Hlt].
  - reflexivity.
  - lia.
Qed.

(** On the last day, with both thresholds met and the streak at its
    threshold, the ending is still 'bad_end'. *)
Lemma checkEndingCondition_bad_end_preempts_witness :
  checkEndingCondition
    (GameState.mk Config.defaults 30 100 200000 10) = Some "bad_end"%string.
Proof.
  apply checkEndingCondition_bad_end_preempts. vm_compute. discriminate.
Defined.

(** C2. Below the idle threshold: from [max_days] on the ending is
    'perfect_end', 'money_end', 'affection_end' or 'normal_end', decided in
    this order by the two thresholds; before [max_days] there is no ending. *)
Theorem checkEndingCondition_day_limit (g : GameState.t) :
  consecutive_none g < Config.bad_end_threshold (config g) ->
  let c := config g in
  (day g >= Config.max_days c ->
     (affection g >= Config.affection_threshold c ->
      money g >= Config.goal_money c ->
      checkEndingCondition g = Some "perfect_end"%string)
     /\ (affection g < Config.affection_threshold c ->
         money g >= Config.goal_money c ->
         checkEndingCondition g = Some "money_end"%string)
     /\ (affection g >= Config.affection_threshold c ->
         money g < Config.goal_money c ->
         checkEndingCondition g = Some "affection_end"%string)
     /\ (affection g < Config.affection_threshold c ->
         money g < Config.goal_money c ->
         checkEndingCondition g = Some "normal_end"%string))
  /\ (day g < Config.max_days c -> checkEndingCondition g = None).
Proof.
  intros Hnone c. unfold checkEndingCondition. fold c.
  destruct (Z.geb_spec (consecutive_none g) (Config.bad_end_threshold c))
    as [Hge | _]; [unfold c in Hge; lia |].
  destruct (Z.geb_spec (day g) (Config.max_days c)) as [Hday | Hday];
    destruct (Z.geb_spec (affection g) (Config.affection_threshold c));
    destruct (Z.geb_spec (money g) (Config.goal_money c));
    cbn; repeat split; intros; solve [reflexivity | lia].
Qed.

Lemma checkEndingCondition_day_limit_witness :
  checkEndingCondition (GameState.mk Config.defaults 30 70 100000 9)
    = Some "perfect_end"%string
  /\ checkEndingCondition (GameState.mk Config.defaults 30 69 100000 0)
     = Some "money_end"%string
  /\ checkEndingCondition (GameState.mk Config.defaults 30 70 99999 0)
     = Some "affection_end"%string
  /\ checkEndingCondition (GameState.mk Config.defaults 30 69 99999 0)
     = Some "normal_end"%string
  /\ checkEndingCondition (GameState.mk Config.defaults 29 100 200000 9)
     = None.
Proof.
  split; [| split; [| split; [| split]]].
  - apply (checkEndingCondition_day_limit
             (GameState.mk Config.defaults 30 70 100000 9));
      vm_compute; congruence.
  - apply (checkEndingCondition_day_limit
             (GameState.mk Config.defaults 30 69 100000 0));
      vm_compute; congruence.
  - apply (checkEndingCondition_day_limit
             (GameState.mk Config.defaults 30 70 99999 0));
      vm_compute; congruence.
  - apply (checkEndingCondition_day_limit
             (GameState.mk Config.defaults 30 69 99999 0));
      vm_compute; congruence.
  - apply (checkEndingCondition_day_limit
             (GameState.mk Config.defaults 29 100 200000 9));
      vm_compute; congruence.
Defined.

(** ** Day progression *)

(** C9. [incrementDay] adds exactly one day while [day < max_days], leaves
    the day as it is from [max_days] on, so a day that is at most [max_days]
    stays so, and touches no other field. *)
Theorem incrementDay_saturates (g : GameState.t) :
  let m := Config.max_days (config g) in
  (day g < m -> day (incrementDay g) = day g + 1)
  /\ (day g >= m -> day (incrementDay g) = day g)
  /\ (day g <= m -> day (incrementDay g) <= m)
  /\ affection (incrementDay g) = affection g
  /\ money (incrementDay g) = money g
  /\ consecutive_none (incrementDay g) = consecutive_none g
  /\ config (incrementDay g) = config g.
Proof.
  intros m. unfold incrementDay. fold m.
  destruct (Z.ltb_spec (day g) m) as [Hlt | Hge]; cbn.
  - repeat split; intros; lia.
  - repeat split; intros; lia.
Qed.

Lemma incrementDay_saturates_witness :
  day (incrementDay (GameState.mk Config.defaults 29 50 0 0)) = 30
  /\ day (incrementDay (GameState.mk Config.defaults 30 50 0 0)) = 30
  /\ day (incrementDay (GameState.mk Config.defaults 30 50 0 0)) <= 30.
Proof.
  destruct (incrementDay_saturates (GameState.mk Config.defaults 29 50 0 0))
    as (Hbelow & _).
  destruct (incrementDay_saturates (GameState.mk Config.defaults 30 50 0 0))
    as (_ & Hat & Hle & _).
  split; [| split].
  - apply Hbelow. vm_compute. reflexivity.
  - apply Hat. vm_compute. discriminate.
  - apply Hle. vm_compute. discriminate.
Defined.

(** ** Actions *)

(** C7. 'play' and 'work' set [consecutive_none] to 0; 'none' adds exactly
    one to it, and the action itself changes nothing else: the switch
    leaves day, affection, money and configuration as they were, and so
    does the whole call when no event effect is passed. *)
Theorem applyAction_consecutive_none
    (g : GameState.t) (e : Effects.t) (r : Q) :
  consecutive_none (applyAction g "play" e r) = 0
  /\ consecutive_none (applyAction g "work" e r) = 0
  /\ consecutive_none (applyAction g "none" e r) = consecutive_none g + 1
  /\ actionSwitch g "none" r
     = GameState.mk (config g) (day g) (affection g) (money g)
                    (consecutive_none g + 1)
  /\ applyAction g "none" Effects.none r
     = GameState.mk (config g) (day g) (affection g) (money g)
                    (consecutive_none g + 1).
Proof.
  unfold applyAction.
  repeat split;
    try (destruct (eventEffects_ranges (actionSwitch g "play" r) e)
           as (_ & _ & -> & _); reflexivity);
    try (destruct (eventEffects_ranges (actionSwitch g "work" r) e)
           as (_ & _ & -> & _); reflexivity);
    try (destruct (eventEffects_ranges (actionSwitch g "none" r) e)
           as (_ & _ & -> & _); reflexivity).
Qed.

(** C5. A 'play' action on an affection within [0, 100] gains at least 3
    before the cap at 100 is applied, whatever the draw: [applyAction] sets
    the affection to the capped sum when the event brings no affection
    delta, and adds the clamped delta to that sum when it brings one; so
    without a delta the affection rises by at least 3 wherever 100 leaves
    room.  The affection that results from the whole call lies in
    [0, 100]. *)
Theorem applyAction_play_affection
    (g : GameState.t) (e : Effects.t) (r : Q) :
  0 <= affection g <= 100 ->
  let gain := Z.max 3 (affectionGain (config g) r) in
  let played := Z.min 100 (affection g + gain) in
  3 <= gain
  /\ affection (actionSwitch g "play" r) = Z.min 100 (affection g + gain)
  /\ Z.min 100 (affection g + 3) <= affection (actionSwitch g "play" r)
  /\ affection (applyAction g "play" Effects.none r) = played
  /\ affection (applyAction g "play" e r)
     = (if Js.truthy (Effects.affection_delta e)
        then Z.max 0 (Z.min 100
                        (played + Js.or_num (Effects.affection_delta e) 0))
        else played)
  /\ (Js.truthy (Effects.affection_delta e) = false ->
      Z.min 100 (affection g + 3) <= affection (applyAction g "play" e r)
      /\ (affection g + gain <= 100 ->
          affection (applyAction g "play" e r) = affection g + gain))
  /\ 0 <= affection (applyAction g "play" e r) <= 100.
Proof.
  intros Hrange gain played.
  assert (Hsw : affection (actionSwitch g "play" r)
                = Z.min 100 (affection g + gain)) by reflexivity.
  assert (Happ : affection (applyAction g "play" e r)
                 = (if Js.truthy (Effects.affection_delta e)
                    then Z.max 0
                           (Z.min 100
                              (played
                               + Js.or_num (Effects.affection_delta e) 0))
                    else played)).
  { unfold applyAction, eventEffects.
    destruct (Js.truthy (Effects.affection_delta e));
      destruct (Js.truthy (Effects.money_delta e)); reflexivity. }
  split; [subst gain; lia |].
  split; [exact Hsw |].
  split; [rewrite Hsw; subst gain; lia |].
  split; [reflexivity |].
  split; [exact Happ |].
  split.
  - intros Hfalsy. rewrite Happ, Hfalsy. subst played gain. split; lia.
  - rewrite Happ. destruct (Js.truthy (Effects.affection_delta e));
      subst played gain; lia.
Qed.

Lemma applyAction_play_affection_witness :
  affection
    (applyAction (GameState.mk Config.defaults 1 30 0 0) "play"
                 Effects.none (1 # 2)) = 35
  /\ affection
       (applyAction (GameState.mk Config.defaults 1 30 0 0) "play"
                    (Effects.mk (Some (-2)) None) (1 # 2)) = 33
  /\ 0 <= affection
            (applyAction (GameState.mk Config.defaults 1 99 0 0) "play"
                         (Effects.mk (Some (-200)) None) (1 # 2)) <= 100.
Proof.
  destruct (applyAction_play_affection
              (GameState.mk Config.defaults 1 30 0 0)
              (Effects.mk (Some (-2)) None) (1 # 2))
    as (_ & _ & _ & Hnone & Hdelta & _); [vm_compute; split; discriminate |].
  destruct (applyAction_play_affection
              (GameState.mk Config.defaults 1 99 0 0)
              (Effects.mk (Some (-200)) None) (1 # 2))
    as (_ & _ & _ & _ & _ & _ & Hrange); [vm_compute; split; discriminate |].
  split; [exact Hnone |]. split; [exact Hdelta | exact Hrange].
Defined.

(** C6. A 'work' action adds to the money an amount within [4000, 7000],
    whatever the draw: [applyAction] sets the money to the old money plus
    that amount when the event brings no money delta, and adds the delta to
    that sum, floored at 0, when it brings one.  The money of a state that
    started non-negative is non-negative after the whole call. *)
Theorem applyAction_work_money
    (g : GameState.t) (e : Effects.t) (r : Q) :
  0 <= money g ->
  let gain := Z.max 4000 (Z.min 7000 (moneyGain (config g) r)) in
  4000 <= gain <= 7000
  /\ money (actionSwitch g "work" r) = money g + gain
  /\ money (applyAction g "work" Effects.none r) = money g + gain
  /\ money (applyAction g "work" e r)
     = (if Js.truthy (Effects.money_delta e)
        then Z.max 0 (money g + gain + Js.or_num (Effects.money_delta e) 0)
        else money g + gain)
  /\ (Js.truthy (Effects.money_delta e) = false ->
      money g + 4000 <= money (applyAction g "work" e r) <= money g + 7000)
  /\ 0 <= money (applyAction g "work" e r).
Proof.
  intros Hmoney gain.
  assert (Hsw : money (actionSwitch g "work" r) = money g + gain)
    by reflexivity.
  assert (Happ : money (applyAction g "work" e r)
                 = (if Js.truthy (Effects.money_delta e)
                    then Z.max 0
                           (money g + gain
                            + Js.or_num (Effects.money_delta e) 0)
                    else money g + gain)).
  { unfold applyAction, eventEffects.
    destruct (Js.truthy (Effects.affection_delta e));
      destruct (Js.truthy (Effects.money_delta e)); reflexivity. }
  split; [subst gain; lia |].
  split; [exact Hsw |].
  split; [reflexivity |].
  split; [exact Happ |].
  split.
  - intros Hfalsy. rewrite Happ, Hfalsy. subst gain. lia.
  - rewrite Happ. destruct (Js.truthy (Effects.money_delta e));
      subst gain; lia.
Qed.

Lemma applyAction_work_money_witness :
  money (applyAction (GameState.mk Config.defaults 1 30 1000 0) "work"
                     Effects.none (3 # 4)) = 7000
  /\ money (applyAction (GameState.mk Config.defaults 1 30 1000 0) "work"
                        (Effects.mk None (Some (-500))) (3 # 4)) = 6500
  /\ 0 <= money
            (applyAction (GameState.mk Config.defaults 1 30 0 0) "work"
                         (Effects.mk None (Some (-9000))) (3 # 4)).
Proof.
  destruct (applyAction_work_money
              (GameState.mk Config.defaults 1 30 1000 0)
              (Effects.mk None (Some (-500))) (3 # 4))
    as (_ & _ & Hnone & Hdelta & _); [vm_compute; discriminate |].
  destruct (applyAction_work_money
              (GameState.mk Config.defaults 1 30 0 0)
              (Effects.mk None (Some (-9000))) (3 # 4))
    as (_ & _ & _ & _ & _ & Hfloor); [vm_compute; discriminate |].
  split; [exact Hnone |]. split; [exact Hdelta | exact Hfloor].
Defined.

(** ** Restoring a state *)

(** [Object.assign] with a copy of the configuration changes nothing. *)
Lemma assign_spread (c : Config.t) : Config.assign c (Config.spread c) = c.
Proof. destruct c; reflexivity. Qed.

(** X21. What [setState] does establish: as long as the restored object does not
    replace [max_days] and the current [max_days] is at least 1, the state
    that results passes [validateState], whatever the fields held. *)
Lemma setState_valid_when_max_days_kept (g : GameState.t) (s : Snapshot.t) :
  1 <= Config.max_days (config g) ->
  match Snapshot.config s with
  | Some cfg => Config.p_max_days cfg = None
  | None => True
  end ->
  validateState (setState g s) = true.
Proof.
  intros Hmax Hkeep. unfold validateState, setState.
  destruct (Snapshot.config s) as [cfg |]; cbn.
  - rewrite Hkeep. cbn.
    repeat (apply andb_true_intro; split);
      first [apply Z.geb_le | apply Z.leb_le]; lia.
  - repeat (apply andb_true_intro; split);
      first [apply Z.geb_le | apply Z.leb_le]; lia.
Qed.

Lemma setState_valid_when_max_days_kept_witness :
  validateState
    (setState (constructor Config.empty)
              (Snapshot.mk (Some 99) (Some (-5)) None (Some (-1)) None))
  = true.
Proof.
  apply setState_valid_when_max_days_kept.
  - vm_compute. discriminate.
  - exact I.
Defined.

(** C8 (the code departs from it). A new game restores
    [{day: 20, affection: 50, money: 0, consecutive_none: 0,
      config: {max_days: 10}}]: the day is clamped against the old limit 30
    and kept at 20, then the limit becomes 10, and [validateState] is
    false. *)
Theorem setState_override_max_days_invalid :
  let restored :=
    setState (constructor Config.empty)
      (Snapshot.mk (Some 20) (Some 50) (Some 0) (Some 0)
         (Some (Config.mk_patch None None (Some 10) None None
                                None None None None))) in
  day restored = 20
  /\ Config.max_days (config restored) = 10
  /\ validateState restored = false.
Proof. cbv zeta. repeat split. Qed.

(** C10. [setState] treats a field holding 0 as it treats a missing one.
    An affection of 0 is replaced by the clamped [initial_affection], which
    is [initial_affection] itself when that lies in [0, 100] and 30 in a
    game built with the default configuration; a day of 0 becomes 1; and a
    state whose affection is 0 does not come back from
    [setState(getState())] when [initial_affection] is in [1, 100]. *)
Theorem setState_zero_is_defaulted (g : GameState.t) (s : Snapshot.t) :
  (Snapshot.affection s = Some 0 ->
     affection (setState g s)
     = affection
         (setState g (Snapshot.mk (Snapshot.day s) None (Snapshot.money s)
                        (Snapshot.consecutive_none s) (Snapshot.config s)))
     /\ affection (setState g s)
        = Z.max 0 (Z.min 100 (Config.initial_affection (config g)))
     /\ (0 <= Config.initial_affection (config g) <= 100 ->
         affection (setState g s) = Config.initial_affection (config g))
     /\ affection (setState (constructor Config.empty) s) = 30)
  /\ (Snapshot.day s = Some 0 -> day (setState g s) = 1)
  /\ (affection g = 0 ->
      0 < Config.initial_affection (config g) <= 100 ->
      affection (setState g (getState g))
      = Config.initial_affection (config g)
      /\ affection (setState g (getState g)) <> affection g).
Proof.
  split; [| split].
  - intros Haff. unfold setState. rewrite Haff.
    destruct (Snapshot.config s); cbn; repeat split; intros; lia.
  - intros Hday. unfold setState. rewrite Hday.
    destruct (Snapshot.config s); cbn; lia.
  - intros Hzero Hinit. unfold setState, getState. cbn. rewrite Hzero. cbn.
    lia.
Qed.

Lemma setState_zero_is_defaulted_witness :
  affection
    (setState (GameState.mk Config.defaults 12 0 45000 2)
              (getState (GameState.mk Config.defaults 12 0 45000 2))) = 30
  /\ day (setState (constructor Config.empty)
                   (Snapshot.mk (Some 0) (Some 0) (Some 0) (Some 0) None))
     = 1
  /\ affection
       (setState (constructor Config.empty)
                 (Snapshot.mk (Some 0) (Some 0) (Some 0) (Some 0) None))
     = 30.
Proof.
  destruct (setState_zero_is_defaulted
              (GameState.mk Config.defaults 12 0 45000 2)
              (getState (GameState.mk Config.defaults 12 0 45000 2)))
    as (_ & _ & Hround).
  destruct (setState_zero_is_defaulted
              (constructor Config.empty)
              (Snapshot.mk (Some 0) (Some 0) (Some 0) (Some 0) None))
    as (Haff & Hday & _).
  split; [| split].
  - apply Hround; [reflexivity | vm_compute; split; congruence].
  - apply Hday. reflexivity.
  - apply Haff. reflexivity.
Defined.

(** ** Event effects *)


Lemma getRandomVariation_equal (base m : Z) (r : Q) :
  getRandomVariation base m m r = base.
Proof. unfold getRandomVariation. rewrite Z.eqb_refl. reflexivity. Qed.

Lemma getRandomVariation_range (base lo hi : Z) (r : Q) :
  Js.unit_range r -> lo <> hi ->
  Z.min lo hi <= getRandomVariation base lo hi r <= Z.max lo hi.
Proof.
  intros Hr Hne. unfold getRandomVariation.
  destruct (Z.eqb_spec lo hi) as [Heq | _]; [contradiction |].
  pose proof (random_floor_range r (Z.max lo hi - Z.min lo hi + 1) Hr)
    as Hdraw.
  lia.
Qed.

(** C3, as stated, fails twice.  With both affection bounds equal to 5 and
    a base delta of 3, the computed delta is 3, not 5.  With the bounds 0
    and 8 and a base delta of 10, the bound 0 is falsy and gives way to the
    base, and the draw 1/2 yields 9, outside [0, 8]. *)
Lemma calculateEventEffects_equal_bounds_counterexample :
  (affection_min equal_bounds_event = Some 5
   /\ affection_max equal_bounds_event = Some 5
   /\ Effects.affection_delta
        (calculateEventEffects (Some equal_bounds_event) (1 # 2) (1 # 2))
      = Some 3)
  /\ (affection_min zero_bound_event = Some 0
      /\ affection_max zero_bound_event = Some 8
      /\ Effects.affection_delta
           (calculateEventEffects (Some zero_bound_event) (1 # 2) (1 # 2))
         = Some 9).
Proof. vm_compute. repeat split. Qed.

(** C3, amended. When [affection_min] and [affection_max] are both present
    and equal, the computed [affection_delta] is the base delta of the event
    (0 when the base is missing or 0); when they are present, non-zero and
    different, it is an integer between the smaller and the larger of the
    two, both included.  The same holds of the money fields. *)
Theorem calculateEventEffects_bounds (e : Event) (ra rm : Q) :
  Js.unit_range ra -> Js.unit_range rm ->
  let eff := calculateEventEffects (Some e) ra rm in
  (forall v, affection_min e = Some v -> affection_max e = Some v ->
     Effects.affection_delta eff = Some (Js.or_num (affection_delta e) 0))
  /\ (forall lo hi,
        affection_min e = Some lo -> affection_max e = Some hi ->
        lo <> hi -> lo <> 0 -> hi <> 0 ->
        exists d, Effects.affection_delta eff = Some d
                  /\ Z.min lo hi <= d <= Z.max lo hi)
  /\ (forall v, money_min e = Some v -> money_max e = Some v ->
        Effects.money_delta eff = Some (Js.or_num (money_delta e) 0))
  /\ (forall lo hi,
        money_min e = Some lo -> money_max e = Some hi ->
        lo <> hi -> lo <> 0 -> hi <> 0 ->
        exists d, Effects.money_delta eff = Some d
                  /\ Z.min lo hi <= d <= Z.max lo hi).
Proof.
  intros Hra Hrm eff. subst eff. cbn.
  split; [| split; [| split]].
  - intros v Hmin Hmax. rewrite Hmin, Hmax.
    rewrite getRandomVariation_equal. reflexivity.
  - intros lo hi Hmin Hmax Hne Hlo Hhi. rewrite Hmin, Hmax.
    rewrite (or_num_present lo), (or_num_present hi) by assumption.
    eexists. split; [reflexivity |].
    apply getRandomVariation_range; assumption.
  - intros v Hmin Hmax. rewrite Hmin, Hmax.
    rewrite getRandomVariation_equal. reflexivity.
  - intros lo hi Hmin Hmax Hne Hlo Hhi. rewrite Hmin, Hmax.
    rewrite (or_num_present lo), (or_num_present hi) by assumption.
    eexists. split; [reflexivity |].
    apply getRandomVariation_range; assumption.
Qed.

Lemma calculateEventEffects_bounds_witness :
  (exists d,
     Effects.affection_delta
       (calculateEventEffects (Some ranged_event) (9 # 10) (1 # 3)) = Some d
     /\ Z.min 2 8 <= d <= Z.max 2 8)
  /\ Effects.money_delta
       (calculateEventEffects (Some ranged_event) (9 # 10) (1 # 3))
     = Some (-300).
Proof.
  assert (Hra : Js.unit_range (9 # 10)) by (split; vm_compute; congruence).
  assert (Hrm : Js.unit_range (1 # 3)) by (split; vm_compute; congruence).
  destruct (calculateEventEffects_bounds ranged_event (9 # 10) (1 # 3)
              Hra Hrm) as (_ & Hrange & Hequal & _).
  split.
  - apply Hrange; [reflexivity | reflexivity | | |]; discriminate.
  - apply (Hequal (-500)); reflexivity.
Defined.

(** ** Event selection *)

Lemma adjust_fields (e : Event) :
  id (adjust e) = id e /\ type (adjust e) = type e
  /\ day_specific (adjust e) = day_specific e
  /\ special (adjust e) = special e.
Proof. repeat split. Qed.

Lemma scan_In (evs : list Event) :
  forall (rv : Q) (e : Event), scan evs rv = Some e -> In e evs.
Proof.
  induction evs as [| x rest IH]; intros rv e Hscan; cbn in Hscan.
  - discriminate.
  - destruct (Qle_bool (rv - weight x) 0).
    + injection Hscan as <-. left. reflexivity.
    + right. eapply IH. eassumption.
Qed.

Lemma index_In (evs : list Event) (i : Z) (e : Event) :
  index evs i = Some e -> In e evs.
Proof.
  unfold index. destruct (i <? 0); [discriminate |].
  apply nth_error_In.
Qed.

Lemma index_in_range (evs : list Event) (i : Z) :
  0 <= i < Z.of_nat (List.length evs) -> exists e, index evs i = Some e.
Proof.
  intros Hi. unfold index.
  destruct (Z.ltb_spec i 0) as [Hneg | _]; [lia |].
  destruct (nth_error evs (Z.to_nat i)) as [e |] eqn:Hnth.
  - exists e. reflexivity.
  - apply nth_error_None in Hnth. lia.
Qed.

(** Every draw on a non-empty list selects a member of the list, or the
    re-weighted copy of a member. *)
Lemma selectWeightedRandom_member (evs : list Event) (r : Q) :
  Js.unit_range r -> evs <> [] ->
  exists e e0, selectWeightedRandom evs r = Some e
               /\ In e0 evs /\ (e = e0 \/ e = adjust e0).
Proof.
  intros Hr Hne. destruct evs as [| first rest]; [contradiction |].
  unfold selectWeightedRandom.
  set (evs := first :: rest).
  set (adjustedEvents :=
         if (type first =? "play")%string then map adjust evs else evs).
  assert (Hadj : forall e, In e adjustedEvents ->
                   exists e0, In e0 evs /\ (e = e0 \/ e = adjust e0)).
  { intros e Hin. subst adjustedEvents.
    destruct (type first =? "play")%string.
    - apply in_map_iff in Hin as (e0 & <- & Hin0).
      exists e0. split; [exact Hin0 | right; reflexivity].
    - exists e. split; [exact Hin | left; reflexivity]. }
  assert (Hlen : List.length adjustedEvents = List.length evs).
  { subst adjustedEvents. destruct (type first =? "play")%string;
      [apply length_map | reflexivity]. }
  destruct (Qle_bool _ 0).
  - destruct (index_in_range evs
                (Js.random_floor r (Z.of_nat (List.length evs))))
      as [e He].
    { apply random_floor_range; [exact Hr | cbn; lia]. }
    exists e, e. rewrite He.
    split; [reflexivity | split; [eapply index_In; eassumption | left; reflexivity]].
  - destruct (scan adjustedEvents _) as [e |] eqn:Hscan.
    + apply scan_In in Hscan. destruct (Hadj e Hscan) as (e0 & Hin0 & Hrel).
      exists e, e0. split; [reflexivity | split; assumption].
    + destruct (index_in_range adjustedEvents
                  (Z.of_nat (List.length adjustedEvents) - 1))
        as [e He].
      { rewrite Hlen. cbn [evs List.length]. lia. }
      rewrite He. apply index_In in He.
      destruct (Hadj e He) as (e0 & Hin0 & Hrel).
      exists e, e0. split; [reflexivity | split; assumption].
Qed.

Lemma isDaySpecific_true (day : Z) (e : Event) :
  isDaySpecific day e = true -> day_specific e = Some day.
Proof.
  unfold isDaySpecific. destruct (day_specific e) as [d |]; cbn.
  - intros H. apply andb_true_iff in H as [_ H].
    apply Z.eqb_eq in H. subst d. reflexivity.
  - discriminate.
Qed.

Lemma isDaySpecific_intro (day : Z) (e : Event) :
  day <> 0 -> day_specific e = Some day -> isDaySpecific day e = true.
Proof.
  intros Hday He. unfold isDaySpecific. rewrite He. cbn.
  rewrite Z.eqb_refl.
  destruct (Z.eqb_spec day 0); [contradiction | reflexivity].
Qed.

(** Outside the days of the game, which run from 1 to [max_days]: on a day
    0 an event whose [day_specific] is 0 counts as generic, since 0 is
    falsy in both filters of [pickEvent]. *)
Lemma pickEvent_day_zero_is_generic :
  isLoaded day_zero_catalog = true
  /\ In day_zero_event (events day_zero_catalog)
  /\ type day_zero_event = "play"%string
  /\ day_specific day_zero_event = Some 0
  /\ pickEvent day_zero_catalog "play" 0 (3 # 4) = Some generic_event
  /\ day_specific generic_event = None.
Proof.
  split; [reflexivity |]. split; [left; reflexivity |].
  split; [reflexivity |]. split; [reflexivity |].
  split; [vm_compute; reflexivity | reflexivity].
Qed.

(** What [pickEvent] returns for a special 'play' event is the copy made
    by [selectWeightedRandom] of the catalog's event. *)
Lemma pickEvent_returns_adjusted_copy :
  pickEvent day_five_catalog "play" 5 (1 # 4) = Some (adjust day_five_special)
  /\ In day_five_special (events day_five_catalog).
Proof. split; [vm_compute; reflexivity | cbn; tauto]. Qed.

(** The day of a valid state is a day of the game, hence not 0. *)
Lemma valid_day_nonzero (g : GameState.t) :
  validateState g = true -> day g <> 0.
Proof.
  unfold validateState. intros H.
  repeat (apply andb_true_iff in H as [H _]).
  apply Z.geb_le in H. lia.
Qed.

(** C4. For a loaded catalog, an action type, a day of the game (any day
    other than 0; the days of a game run from 1 to [max_days]) and any
    draw: if some event of that type has [day_specific] equal to the day,
    [pickEvent] returns an event, and that event is one of those
    day-specific events of the catalog, or for a 'play' list its copy with
    the adjusted weight; in both cases it has the requested type and its
    [day_specific] is the day, so it is never a generic event. *)
Theorem pickEvent_day_specific_preempts
    (es : EventSystem.t) (ty : string) (day : Z) (r : Q) :
  isLoaded es = true -> Js.unit_range r -> day <> 0 ->
  (exists e0, In e0 (events es) /\ type e0 = ty
              /\ day_specific e0 = Some day) ->
  exists e e0,
    pickEvent es ty day r = Some e
    /\ In e0 (events es) /\ type e0 = ty /\ day_specific e0 = Some day
    /\ (e = e0 \/ e = adjust e0)
    /\ type e = ty /\ day_specific e = Some day.
Proof.
  intros Hloaded Hr Hday (w & Hw & Hwty & Hwday).
  unfold pickEvent. rewrite Hloaded. cbn [negb].
  remember (filter (fun e => (type e =? ty)%string) (events es))
    as typeEvents eqn:HT.
  assert (HwT : In w typeEvents).
  { subst typeEvents. apply filter_In.
    split; [exact Hw | apply String.eqb_eq; exact Hwty]. }
  assert (Hsub : forall e, In e typeEvents ->
                   In e (events es) /\ type e = ty).
  { intros e Hin. subst typeEvents. apply filter_In in Hin as [Hin Hty].
    apply String.eqb_eq in Hty. split; assumption. }
  destruct typeEvents as [| t0 trest]; [contradiction |].
  set (daySpecificEvents := filter (isDaySpecific day) (t0 :: trest)).
  assert (HwD : In w daySpecificEvents).
  { apply filter_In. split; [exact HwT |].
    apply isDaySpecific_intro; assumption. }
  assert (Hne : daySpecificEvents <> []).
  { intros Hnil. rewrite Hnil in HwD. contradiction. }
  destruct (Z.ltb_spec 0 (Z.of_nat (List.length daySpecificEvents)))
    as [_ | Hlen].
  - destruct (selectWeightedRandom_member daySpecificEvents r Hr Hne)
      as (e & e0 & Hsel & Hin0 & Hrel).
    apply filter_In in Hin0 as [HinT Hspec].
    apply Hsub in HinT as [Hin Hty].
    apply isDaySpecific_true in Hspec.
    exists e, e0. split; [exact Hsel |].
    repeat (split; [assumption |]).
    destruct Hrel as [-> | ->]; split; assumption.
  - destruct daySpecificEvents; [contradiction | cbn in Hlen; lia].
Qed.

Lemma pickEvent_day_specific_preempts_witness :
  exists e e0,
    pickEvent day_five_catalog "play" 5 (1 # 4) = Some e
    /\ In e0 (events day_five_catalog)
    /\ type e0 = "play"%string /\ day_specific e0 = Some 5
    /\ (e = e0 \/ e = adjust e0)
    /\ type e = "play"%string /\ day_specific e = Some 5.
Proof.
  apply (pickEvent_day_specific_preempts day_five_catalog "play" 5 (1 # 4)).
  - reflexivity.
  - split; vm_compute; congruence.
  - discriminate.
  - exists day_five_plain. repeat split. cbn. tauto.
Defined.

(** * Further properties of the code *)

(** ** The state invariant *)

Lemma validateState_spec (g : GameState.t) :
  validateState g = true
  <-> (1 <= day g <= Config.max_days (config g)
       /\ 0 <= affection g <= 100
       /\ 0 <= money g
       /\ 0 <= consecutive_none g).
Proof.
  unfold validateState.
  rewrite !andb_true_iff, !Z.geb_le, !Z.leb_le. tauto.
Qed.

Lemma actionSwitch_ranges (g : GameState.t) (ty : string) (r : Q) :
  (0 <= affection g <= 100 -> 0 <= affection (actionSwitch g ty r) <= 100)
  /\ (0 <= money g -> 0 <= money (actionSwitch g ty r))
  /\ (0 <= consecutive_none g -> 0 <= consecutive_none (actionSwitch g ty r))
  /\ day (actionSwitch g ty r) = day g
  /\ config (actionSwitch g ty r) = config g.
Proof.
  unfold actionSwitch.
  destruct (ty =? "play")%string; [cbn; repeat split; lia |].
  destruct (ty =? "work")%string; [cbn; repeat split; lia |].
  destruct (ty =? "none")%string; cbn; repeat split; lia.
Qed.

(** X1. [applyAction] keeps the invariant that [validateState] checks: from
    a valid state, every action type (known or not), every event effect and
    every draw lead to a valid state. *)
Theorem applyAction_preserves_valid
    (g : GameState.t) (ty : string) (e : Effects.t) (r : Q) :
  validateState g = true -> validateState (applyAction g ty e r) = true.
Proof.
  rewrite !validateState_spec. intros (Hday & Haff & Hmoney & Hnone).
  unfold applyAction.
  destruct (actionSwitch_ranges g ty r) as (Sa & Sm & Sn & Sd & Sc).
  destruct (eventEffects_ranges (actionSwitch g ty r) e)
    as (Ea & Em & En & Ed & Ec).
  rewrite En, Ed, Ec, Sd, Sc.
  pose proof (Ea (Sa Haff)) as Haff'.
  pose proof (Em (Sm Hmoney)) as Hmoney'.
  pose proof (Sn Hnone) as Hnone'.
  repeat split; lia.
Qed.

Lemma applyAction_preserves_valid_witness :
  validateState
    (applyAction (GameState.mk Config.defaults 30 98 0 9) "play"
                 (Effects.mk (Some 50) (Some (-700))) (2 # 3)) = true.
Proof.
  apply applyAction_preserves_valid. vm_compute. reflexivity.
Defined.

(** X2. [incrementDay] keeps the invariant that [validateState] checks. *)
Theorem incrementDay_preserves_valid (g : GameState.t) :
  validateState g = true -> validateState (incrementDay g) = true.
Proof.
  rewrite !validateState_spec. unfold incrementDay.
  destruct (Z.ltb_spec (day g) (Config.max_days (config g))); cbn; lia.
Qed.

Lemma incrementDay_preserves_valid_witness :
  validateState (incrementDay (GameState.mk Config.defaults 30 0 0 0)) = true.
Proof.
  apply incrementDay_preserves_valid. vm_compute. reflexivity.
Defined.

(** X3. The constructor does not clamp what the configuration gives it: the
    new game is valid exactly when the merged configuration has
    [max_days >= 1] and an [initial_affection] within [0, 100]. *)
Theorem constructor_valid_iff (cfg : Config.patch) :
  validateState (constructor cfg) = true
  <-> (1 <= Config.max_days (Config.assign Config.defaults cfg)
       /\ 0 <= Config.initial_affection (Config.assign Config.defaults cfg)
          <= 100).
Proof.
  rewrite validateState_spec. unfold constructor. cbn. lia.
Qed.

(** [Object.assign] with a full copy of a configuration yields that
    configuration. *)
Lemma assign_spread_any (c c' : Config.t) :
  Config.assign c (Config.spread c') = c'.
Proof. destruct c'; reflexivity. Qed.

(** X4. Round trip: a valid state whose affection is not 0 is restored
    exactly, configuration included, by [setState] from its [getState]
    object, into any game whose [max_days] is not below the saved day. *)
Theorem setState_getState_roundtrip (h g : GameState.t) :
  validateState g = true -> affection g <> 0 ->
  day g <= Config.max_days (config h) ->
  setState h (getState g) = g.
Proof.
  rewrite validateState_spec. intros (Hday & Haff & Hmoney & Hnone) Hnz Hmax.
  unfold setState, getState. cbn. unfold updateConfig, set_config. cbn.
  rewrite assign_spread_any.
  rewrite (or_num_present (day g)) by lia.
  rewrite (or_num_present (affection g)) by assumption.
  assert (Hm : Js.or_num (Some (money g)) 0 = money g).
  { destruct (Z.eq_dec (money g) 0) as [-> | Hne];
      [reflexivity | apply or_num_present; exact Hne]. }
  assert (Hn : Js.or_num (Some (consecutive_none g)) 0 = consecutive_none g).
  { destruct (Z.eq_dec (consecutive_none g) 0) as [-> | Hne];
      [reflexivity | apply or_num_present; exact Hne]. }
  rewrite Hm, Hn. destruct g as [c d a m n]. cbn in *.
  f_equal; lia.
Qed.

Lemma setState_getState_roundtrip_witness :
  setState (constructor Config.empty)
           (getState (GameState.mk Config.defaults 17 64 38000 0))
  = GameState.mk Config.defaults 17 64 38000 0.
Proof.
  apply setState_getState_roundtrip.
  - vm_compute. reflexivity.
  - discriminate.
  - vm_compute. discriminate.
Defined.

(** ** Actions and days in sequence *)

Lemma truthy_present (n : Z) : n <> 0 -> Js.truthy (Some n) = true.
Proof.
  intros Hn. cbn. destruct (Z.eqb_spec n 0); [contradiction | reflexivity].
Qed.

(** X5. An action type other than 'play', 'work' and 'none' does nothing by
    itself, whatever the draw: without event data the state is returned as
    it was; day and streak never change; but a non-zero event delta is
    still added and clamped. *)
Theorem applyAction_unknown_type
    (g : GameState.t) (ty : string) (e : Effects.t) (r : Q) :
  ty <> "play"%string -> ty <> "work"%string -> ty <> "none"%string ->
  applyAction g ty Effects.none r = g
  /\ day (applyAction g ty e r) = day g
  /\ consecutive_none (applyAction g ty e r) = consecutive_none g
  /\ (forall d, Effects.affection_delta e = Some d -> d <> 0 ->
        affection (applyAction g ty e r)
        = Z.max 0 (Z.min 100 (affection g + d)))
  /\ (forall d, Effects.money_delta e = Some d -> d <> 0 ->
        money (applyAction g ty e r) = Z.max 0 (money g + d)).
Proof.
  intros Hplay Hwork Hnone.
  assert (Hsw : actionSwitch g ty r = g).
  { unfold actionSwitch.
    destruct (String.eqb_spec ty "play"); [contradiction |].
    destruct (String.eqb_spec ty "work"); [contradiction |].
    destruct (String.eqb_spec ty "none"); [contradiction | reflexivity]. }
  unfold applyAction. rewrite Hsw.
  split; [reflexivity |]. split; [apply eventEffects_ranges |].
  split; [apply eventEffects_ranges |]. split.
  - intros d Hd Hnz. unfold eventEffects. rewrite Hd.
    rewrite (or_num_present d), (truthy_present d) by assumption.
    destruct (Js.truthy (Effects.money_delta e)); reflexivity.
  - intros d Hd Hnz. unfold eventEffects. rewrite Hd.
    rewrite (or_num_present d), (truthy_present d) by assumption.
    destruct (Js.truthy (Effects.affection_delta e)); reflexivity.
Qed.

Lemma applyAction_unknown_type_witness :
  applyAction (GameState.mk Config.defaults 3 40 900 4) "sleep"
              Effects.none (1 # 2)
  = GameState.mk Config.defaults 3 40 900 4
  /\ affection
       (applyAction (GameState.mk Config.defaults 3 40 900 4) "sleep"
                    (Effects.mk (Some (-7)) None) (1 # 2))
     = 33.
Proof.
  destruct (applyAction_unknown_type
              (GameState.mk Config.defaults 3 40 900 4) "sleep"
              (Effects.mk (Some (-7)) None) (1 # 2))
    as (Hsame & _ & _ & Haff & _); try discriminate.
  split.
  - exact Hsame.
  - apply (Haff (-7)); [reflexivity | discriminate].
Defined.

(** X6. [isGameOver] holds exactly when the idle streak has reached
    [bad_end_threshold] or the day has reached [max_days]. *)
Theorem isGameOver_iff (g : GameState.t) :
  isGameOver g = true
  <-> (consecutive_none g >= Config.bad_end_threshold (config g)
       \/ day g >= Config.max_days (config g)).
Proof.
  unfold isGameOver, checkEndingCondition.
  destruct (Z.geb_spec (consecutive_none g)
                       (Config.bad_end_threshold (config g)));
    [split; [intros _; left; lia | reflexivity] |].
  destruct (Z.geb_spec (day g) (Config.max_days (config g))).
  - destruct (_ && _); [split; [intros _; right; lia | reflexivity] |].
    destruct (_ >=? _); [split; [intros _; right; lia | reflexivity] |].
    destruct (_ >=? _); split; solve [intros _; right; lia | reflexivity].
  - split; [discriminate | lia].
Qed.

(** X7. A run of 'none' actions adds its length to the streak, whatever
    event effects and draws come with the actions; once the sum reaches
    [bad_end_threshold] the ending is 'bad_end'. *)
Theorem applyAction_none_run
    (g : GameState.t) (run : list (Effects.t * Q)) :
  let g' :=
    fold_left (fun s er => applyAction s "none" (fst er) (snd er)) run g in
  consecutive_none g' = consecutive_none g + Z.of_nat (List.length run)
  /\ (consecutive_none g + Z.of_nat (List.length run)
        >= Config.bad_end_threshold (config g) ->
      checkEndingCondition g' = Some "bad_end"%string).
Proof.
  cbv zeta.
  assert (Hrun : forall l s,
            consecutive_none
              (fold_left (fun s er => applyAction s "none" (fst er) (snd er))
                         l s)
            = consecutive_none s + Z.of_nat (List.length l)
            /\ config
                 (fold_left
                    (fun s er => applyAction s "none" (fst er) (snd er)) l s)
               = config s).
  { induction l as [| [e r] rest IH]; intros s.
    - cbn. split; [lia | reflexivity].
    - cbn [fold_left fst snd List.length]. destruct (IH (applyAction s "none" e r))
        as [-> ->].
      unfold applyAction.
      destruct (eventEffects_ranges (actionSwitch s "none" r) e)
        as (_ & _ & -> & _ & ->).
      cbn. split; [lia | reflexivity]. }
  destruct (Hrun run g) as [Hn Hc]. split; [exact Hn |].
  intros Hreach. unfold checkEndingCondition. rewrite Hn, Hc.
  destruct (Z.geb_spec (consecutive_none g + Z.of_nat (List.length run))
                       (Config.bad_end_threshold (config g)));
    [reflexivity | lia].
Qed.

Lemma applyAction_none_run_witness :
  checkEndingCondition
    (fold_left (fun s er => applyAction s "none" (fst er) (snd er))
               (repeat (Effects.mk (Some (-1)) None, 1 # 2) 10)
               (constructor Config.empty))
  = Some "bad_end"%string.
Proof.
  destruct (applyAction_none_run
              (constructor Config.empty)
              (repeat (Effects.mk (Some (-1)) None, 1 # 2) 10))
    as (_ & Hend).
  apply Hend. vm_compute. discriminate.
Defined.

Lemma isGameOver_at_max_days (g : GameState.t) :
  day g >= Config.max_days (config g) -> isGameOver g = true.
Proof.
  intros Hday. unfold isGameOver, checkEndingCondition.
  destruct (_ >=? _); [reflexivity |].
  destruct (Z.geb_spec (day g) (Config.max_days (config g))); [| lia].
  destruct (_ && _); [reflexivity |].
  destruct (_ >=? _); [reflexivity |].
  destruct (_ >=? _); reflexivity.
Qed.

(** X8. [n] calls of [incrementDay] on a day that is at most [max_days]
    give the day [min(max_days, day + n)]: the day counts up and stops at
    [max_days], where [isGameOver] holds. *)
Theorem incrementDay_iterated (g : GameState.t) (n : nat) :
  day g <= Config.max_days (config g) ->
  let g' := Nat.iter n incrementDay g in
  day g' = Z.min (Config.max_days (config g)) (day g + Z.of_nat n)
  /\ config g' = config g
  /\ (Config.max_days (config g) <= day g + Z.of_nat n ->
      isGameOver g' = true).
Proof.
  intros Hle. cbv zeta.
  assert (Hit : day (Nat.iter n incrementDay g)
                = Z.min (Config.max_days (config g)) (day g + Z.of_nat n)
                /\ config (Nat.iter n incrementDay g) = config g).
  { induction n as [| n [IHd IHc]].
    - cbn. split; [lia | reflexivity].
    - rewrite Nat.iter_succ. unfold incrementDay at 1 3.
      rewrite IHc, IHd.
      destruct (Z.ltb_spec
                  (Z.min (Config.max_days (config g)) (day g + Z.of_nat n))
                  (Config.max_days (config g))); cbn; rewrite ?IHd, ?IHc;
        split; solve [lia | reflexivity]. }
  destruct Hit as [Hd Hc]. split; [exact Hd |]. split; [exact Hc |].
  intros Hreach. apply isGameOver_at_max_days. rewrite Hd, Hc. lia.
Qed.

Lemma incrementDay_iterated_witness :
  day (Nat.iter 40 incrementDay (constructor Config.empty)) = 30
  /\ isGameOver (Nat.iter 29 incrementDay (constructor Config.empty)) = true.
Proof.
  destruct (incrementDay_iterated (constructor Config.empty) 40)
    as (Hday & _); [vm_compute; discriminate |].
  destruct (incrementDay_iterated (constructor Config.empty) 29)
    as (_ & _ & Hover); [vm_compute; discriminate |].
  split.
  - exact Hday.
  - apply Hover. vm_compute. discriminate.
Defined.

(** ** Ending names *)

(** X9. Every ending that [checkEndingCondition] can return has a display
    name of its own in [getEndingName], different from the label of unknown
    endings; and a key that is neither one of the five endings nor a member
    of [Object.prototype] gets that label. *)
Theorem getEndingName_of_endings :
  (forall (g : GameState.t) (ending : string),
     checkEndingCondition g = Some ending ->
     exists name,
       getEndingName ending = Name name
       /\ name <> "不明なエンディング"%string
       /\ In (ending, name) endingNames)
  /\ (forall key : string,
        ~ In key (map fst endingNames) -> ~ In key prototypeKeys ->
        getEndingName key = Name "不明なエンディング"%string).
Proof.
  split.
  - intros g ending Hend. unfold checkEndingCondition in Hend.
    destruct (_ >=? _) in Hend;
      [injection Hend as <-; eexists;
       split; [reflexivity | split; [discriminate | cbn; tauto]] |].
    destruct (_ >=? _) in Hend; [| discriminate].
    destruct (_ && _) in Hend;
      [injection Hend as <-; eexists;
       split; [reflexivity | split; [discriminate | cbn; tauto]] |].
    destruct (_ >=? _) in Hend;
      [injection Hend as <-; eexists;
       split; [reflexivity | split; [discriminate | cbn; tauto]] |].
    destruct (_ >=? _) in Hend;
      injection Hend as <-; eexists;
      (split; [reflexivity | split; [discriminate | cbn; tauto]]).
  - intros key Hown Hproto. unfold getEndingName, lookupEndingName.
    assert (Hassoc : assoc key endingNames = None).
    { unfold endingNames in *. cbn [assoc]. cbn [map fst In] in Hown.
      repeat match goal with
             | |- context [(?k =? key)%string] =>
                 destruct (String.eqb_spec k key); [exfalso; tauto |]
             end.
      reflexivity. }
    rewrite Hassoc.
    assert (Hex : existsb (fun k => (k =? key)%string) prototypeKeys = false).
    { destruct (existsb _ prototypeKeys) eqn:Hex; [| reflexivity].
      apply existsb_exists in Hex as (k & Hin & Heq).
      apply String.eqb_eq in Heq. subst k. contradiction. }
    rewrite Hex. reflexivity.
Qed.

Lemma getEndingName_of_endings_witness :
  (exists name,
     getEndingName "affection_end" = Name name
     /\ name <> "不明なエンディング"%string
     /\ In ("affection_end"%string, name) endingNames)
  /\ getEndingName "secret_end" = Name "不明なエンディング"%string.
Proof.
  destruct getEndingName_of_endings as [Hown Hother].
  split.
  - apply (Hown (GameState.mk Config.defaults 30 80 500 0)). reflexivity.
  - apply Hother.
    + cbn. intros H. repeat (destruct H as [H | H]; [discriminate |]).
      exact H.
    + cbn. intros H. repeat (destruct H as [H | H]; [discriminate |]).
      exact H.
Defined.

(** ** Selection: what can be returned *)

(** Whatever [selectWeightedRandom] returns is a member of the list, or the
    re-weighted copy of a member; no assumption on the draw. *)
Lemma selectWeightedRandom_sound (evs : list Event) (r : Q) (e : Event) :
  selectWeightedRandom evs r = Some e ->
  exists e0, In e0 evs /\ (e = e0 \/ e = adjust e0).
Proof.
  destruct evs as [| first rest]; [discriminate |].
  unfold selectWeightedRandom.
  set (evs := first :: rest).
  set (adj := if (type first =? "play")%string then map adjust evs else evs).
  assert (Hadj : forall x, In x adj ->
                   exists e0, In e0 evs /\ (x = e0 \/ x = adjust e0)).
  { intros x Hin. subst adj. destruct (type first =? "play")%string.
    - apply in_map_iff in Hin as (e0 & <- & Hin0).
      exists e0. split; [exact Hin0 | right; reflexivity].
    - exists x. split; [exact Hin | left; reflexivity]. }
  destruct (Qle_bool _ 0).
  - intros Hidx. apply index_In in Hidx.
    exists e. split; [exact Hidx | left; reflexivity].
  - destruct (scan adj _) as [x |] eqn:Hscan.
    + intros [= <-]. apply Hadj. eapply scan_In. eassumption.
    + intros Hidx. apply index_In in Hidx. apply Hadj. exact Hidx.
Qed.

Lemma isDaySpecific_false_filter (day : Z) (l : list Event) :
  filter (isDaySpecific day) l = [] ->
  forall x, In x l -> isDaySpecific day x = false.
Proof.
  intros Hnil x Hin. destruct (isDaySpecific day x) eqn:Hx; [| reflexivity].
  assert (Hmem : In x (filter (isDaySpecific day) l))
    by (apply filter_In; split; assumption).
  rewrite Hnil in Hmem. contradiction.
Qed.

(** X10. Whatever [pickEvent] returns, for any day and any draw, is an event
    of the catalog with the requested type, or its re-weighted copy; it is
    either bound to the requested day, or bound to no day at all while no
    event of that type is bound to the requested day.  An event bound to
    another day is never returned, and nothing is returned before the
    catalog is loaded. *)
Theorem pickEvent_sound
    (es : EventSystem.t) (ty : string) (day : Z) (r : Q) (e : Event) :
  pickEvent es ty day r = Some e ->
  isLoaded es = true
  /\ type e = ty
  /\ (exists e0, In e0 (events es) /\ type e0 = ty
                 /\ (e = e0 \/ e = adjust e0))
  /\ ((day_specific e = Some day /\ day <> 0)
      \/ (Js.truthy (day_specific e) = false
          /\ forall x, In x (events es) -> type x = ty ->
                       isDaySpecific day x = false)).
Proof.
  unfold pickEvent. destruct (isLoaded es); [cbn [negb] | discriminate].
  remember (filter (fun x => (type x =? ty)%string) (events es))
    as typeEvents eqn:HT.
  assert (Hsub : forall x, In x typeEvents <->
                   In x (events es) /\ type x = ty).
  { intros x. subst typeEvents. rewrite filter_In, String.eqb_eq. tauto. }
  destruct typeEvents as [| t0 trest]; [discriminate |].
  set (pool := t0 :: trest) in *.
  destruct (filter (isDaySpecific day) pool) as [| d0 drest] eqn:HD.
  - cbn [List.length Z.of_nat Z.ltb Z.compare].
    intros Hsel. apply selectWeightedRandom_sound in Hsel
      as (e0 & Hin0 & Hrel).
    apply filter_In in Hin0 as [Hin0 Hfalsy].
    apply negb_true_iff in Hfalsy.
    apply Hsub in Hin0 as [Hin0 Hty].
    assert (Hfields : type e = ty
                      /\ Js.truthy (day_specific e) = false).
    { destruct Hrel as [-> | ->]; split; assumption. }
    destruct Hfields as [Hety Hefalsy].
    split; [reflexivity |]. split; [exact Hety |].
    split; [exists e0; repeat split; assumption |].
    right. split; [exact Hefalsy |].
    intros x Hx Hxty.
    apply (isDaySpecific_false_filter day pool HD). apply Hsub.
    split; assumption.
  - replace (0 <? Z.of_nat (List.length (d0 :: drest))) with true
      by (symmetry; apply Z.ltb_lt; cbn [List.length]; lia).
    intros Hsel. apply selectWeightedRandom_sound in Hsel
      as (e0 & Hin0 & Hrel).
    rewrite <- HD in Hin0.
    apply filter_In in Hin0 as [Hin0 Hspec].
    apply Hsub in Hin0 as [Hin0 Hty].
    assert (Hnz : day <> 0).
    { unfold isDaySpecific in Hspec.
      apply andb_true_iff in Hspec as [Htr Heq].
      destruct (day_specific e0) as [d |]; [| discriminate].
      apply Z.eqb_eq in Heq. subst d. cbn in Htr.
      intros ->. discriminate. }
    apply isDaySpecific_true in Hspec.
    assert (Hfields : type e = ty /\ day_specific e = Some day).
    { destruct Hrel as [-> | ->]; split; assumption. }
    destruct Hfields as [Hety Heday].
    split; [reflexivity |]. split; [exact Hety |].
    split; [exists e0; repeat split; assumption |].
    left. split; assumption.
Qed.

Lemma pickEvent_sound_witness :
  type (adjust day_five_special) = "play"%string
  /\ ((day_specific (adjust day_five_special) = Some 5 /\ 5 <> 0)
      \/ (Js.truthy (day_specific (adjust day_five_special)) = false
          /\ forall x, In x (events day_five_catalog) ->
                       type x = "play"%string ->
                       isDaySpecific 5 x = false)).
Proof.
  destruct (pickEvent_sound day_five_catalog "play" 5 (1 # 4)
              (adjust day_five_special))
    as (_ & Hty & _ & Hday).
  - vm_compute. reflexivity.
  - split; [exact Hty | exact Hday].
Defined.

(** X11. For a loaded catalog and a draw in [0, 1), [pickEvent] returns
    nothing exactly when the pool is empty: every event of the requested
    type is bound to a day (a non-zero [day_specific]) other than the
    requested one.  In particular it returns nothing when there is no event
    of that type. *)
Theorem pickEvent_none_iff
    (es : EventSystem.t) (ty : string) (day : Z) (r : Q) :
  isLoaded es = true -> Js.unit_range r ->
  (pickEvent es ty day r = None
   <-> forall x, In x (events es) -> type x = ty ->
         Js.truthy (day_specific x) = true /\ day_specific x <> Some day).
Proof.
  intros Hloaded Hr. unfold pickEvent. rewrite Hloaded. cbn [negb].
  remember (filter (fun x => (type x =? ty)%string) (events es))
    as typeEvents eqn:HT.
  assert (Hsub : forall x, In x typeEvents <->
                   In x (events es) /\ type x = ty).
  { intros x. subst typeEvents. rewrite filter_In, String.eqb_eq. tauto. }
  destruct typeEvents as [| t0 trest].
  - split; [| reflexivity]. intros _ x Hx Hxty.
    exfalso. apply (proj2 (Hsub x)). split; assumption.
  - set (pool := t0 :: trest) in *.
    destruct (filter (isDaySpecific day) pool) as [| d0 drest] eqn:HD.
    + cbn [List.length Z.of_nat Z.ltb Z.compare].
      destruct (filter (fun e => negb (Js.truthy (day_specific e))) pool)
        as [| n0 nrest] eqn:HN.
      * split; [| reflexivity]. intros _ x Hx Hxty.
        assert (Hpool : In x pool) by (apply Hsub; split; assumption).
        destruct (Js.truthy (day_specific x)) eqn:Htr.
        -- split; [reflexivity |]. intros Hbound.
           pose proof (isDaySpecific_false_filter day pool HD x Hpool)
             as Hfalse.
           unfold isDaySpecific in Hfalse. rewrite Htr, Hbound in Hfalse.
           rewrite Z.eqb_refl in Hfalse. discriminate.
        -- exfalso.
           assert (Hmem : In x (filter (fun e =>
                                  negb (Js.truthy (day_specific e))) pool)).
           { apply filter_In. split; [exact Hpool |].
             rewrite Htr. reflexivity. }
           rewrite HN in Hmem. contradiction.
      * destruct (selectWeightedRandom_member (n0 :: nrest) r Hr)
          as (e & e0 & Hsel & _); [discriminate |].
        rewrite Hsel. split; [discriminate |]. intros Hall. exfalso.
        assert (Hmem : In n0 (filter (fun e =>
                                negb (Js.truthy (day_specific e))) pool))
          by (rewrite HN; left; reflexivity).
        apply filter_In in Hmem as [Hpool Hfalsy].
        apply Hsub in Hpool as [Hin Hty].
        destruct (Hall n0 Hin Hty) as [Htr _].
        rewrite Htr in Hfalsy. discriminate.
    + replace (0 <? Z.of_nat (List.length (d0 :: drest))) with true
        by (symmetry; apply Z.ltb_lt; cbn [List.length]; lia).
      destruct (selectWeightedRandom_member (d0 :: drest) r Hr)
        as (e & e0 & Hsel & _); [discriminate |].
      rewrite Hsel. split; [discriminate |]. intros Hall. exfalso.
      assert (Hmem : In d0 (filter (isDaySpecific day) pool))
        by (rewrite HD; left; reflexivity).
      apply filter_In in Hmem as [Hpool Hspec].
      apply Hsub in Hpool as [Hin Hty].
      apply isDaySpecific_true in Hspec.
      destruct (Hall d0 Hin Hty) as [_ Hne]. contradiction.
Qed.

Lemma pickEvent_none_iff_witness :
  pickEvent day_five_catalog "work" 5 (1 # 4) = None.
Proof.
  apply (pickEvent_none_iff day_five_catalog "work" 5 (1 # 4)).
  - reflexivity.
  - split; vm_compute; congruence.
  - cbn. intros x [<- | [<- | [<- | []]]]; discriminate.
Defined.

(** ** Event effects: the general bound *)

Lemma getRandomVariation_hull (base lo hi : Z) (r : Q) :
  Js.unit_range r ->
  Z.min base (Z.min lo hi) <= getRandomVariation base lo hi r
  <= Z.max base (Z.max lo hi).
Proof.
  intros Hr. destruct (Z.eq_dec lo hi) as [-> | Hne].
  - rewrite getRandomVariation_equal. lia.
  - pose proof (getRandomVariation_range base lo hi r Hr Hne). lia.
Qed.

(** X14. For every event and every pair of draws, [calculateEventEffects]
    returns two numbers; each lies between the smallest and the largest of
    the base delta and the two bounds in use, where a bound that is missing
    or 0 counts as the base delta and a base that is missing counts as 0.
    With both bounds missing the result is the base delta itself. *)
Theorem calculateEventEffects_hull (e : Event) (ra rm : Q) :
  Js.unit_range ra -> Js.unit_range rm ->
  let ba := Js.or_num (affection_delta e) 0 in
  let bm := Js.or_num (money_delta e) 0 in
  exists da dm,
    calculateEventEffects (Some e) ra rm = Effects.mk (Some da) (Some dm)
    /\ Z.min ba (Z.min (Js.or_num (affection_min e) ba)
                       (Js.or_num (affection_max e) ba))
       <= da
       <= Z.max ba (Z.max (Js.or_num (affection_min e) ba)
                          (Js.or_num (affection_max e) ba))
    /\ Z.min bm (Z.min (Js.or_num (money_min e) bm)
                       (Js.or_num (money_max e) bm))
       <= dm
       <= Z.max bm (Z.max (Js.or_num (money_min e) bm)
                          (Js.or_num (money_max e) bm))
    /\ (affection_min e = None -> affection_max e = None -> da = ba)
    /\ (money_min e = None -> money_max e = None -> dm = bm).
Proof.
  intros Hra Hrm ba bm. eexists. eexists.
  split; [reflexivity |].
  split; [apply getRandomVariation_hull; exact Hra |].
  split; [apply getRandomVariation_hull; exact Hrm |].
  split.
  - intros -> ->. cbn. apply getRandomVariation_equal.
  - intros -> ->. cbn. apply getRandomVariation_equal.
Qed.

(** An event with only an upper bound on the affection. *)
Lemma calculateEventEffects_hull_witness :
  exists da dm,
    calculateEventEffects (Some zero_bound_event) (1 # 2) (1 # 2)
    = Effects.mk (Some da) (Some dm)
    /\ 8 <= da <= 10 /\ dm = 0.
Proof.
  assert (Hr : Js.unit_range (1 # 2)) by (split; vm_compute; congruence).
  destruct (calculateEventEffects_hull zero_bound_event (1 # 2) (1 # 2)
              Hr Hr) as (da & dm & Heq & Ha & _ & _ & Hm).
  exists da, dm. split; [exact Heq |]. split.
  - vm_compute in Ha. vm_compute. exact Ha.
  - apply Hm; reflexivity.
Defined.

(** ** main.js *)

Import Main.

(** X15. [handlePlayerAction] keeps the invariant that [validateState]
    checks, for every catalog (loaded or not), action type and draws; it
    leaves day and configuration alone, sets the streak to 0 for 'play' and
    'work' and adds one to it for 'none', whichever event was picked. *)
Theorem handlePlayerAction_valid
    (es : EventSystem.t) (g : GameState.t) (ty : string) (d : Draws) :
  validateState g = true ->
  let g' := handlePlayerAction es g ty d in
  validateState g' = true
  /\ day g' = day g
  /\ config g' = config g
  /\ (ty = "play"%string \/ ty = "work"%string -> consecutive_none g' = 0)
  /\ (ty = "none"%string -> consecutive_none g' = consecutive_none g + 1).
Proof.
  intros Hvalid. cbv zeta.
  assert (Hany : forall eff,
            validateState (applyAction g ty eff (action_draw d)) = true
            /\ day (applyAction g ty eff (action_draw d)) = day g
            /\ config (applyAction g ty eff (action_draw d)) = config g
            /\ (ty = "play"%string \/ ty = "work"%string ->
                consecutive_none (applyAction g ty eff (action_draw d)) = 0)
            /\ (ty = "none"%string ->
                consecutive_none (applyAction g ty eff (action_draw d))
                = consecutive_none g + 1)).
  { intros eff. apply validateState_spec in Hvalid
      as (Hday & Haff & Hmoney & Hnone).
    rewrite validateState_spec. unfold applyAction.
    destruct (actionSwitch_ranges g ty (action_draw d))
      as (Sa & Sm & Sn & Sd & Sc).
    destruct (eventEffects_ranges (actionSwitch g ty (action_draw d)) eff)
      as (Ea & Em & En & Ed & Ec).
    rewrite En, Ed, Ec, Sd, Sc.
    pose proof (Ea (Sa Haff)). pose proof (Em (Sm Hmoney)).
    pose proof (Sn Hnone).
    split; [repeat split; lia |].
    split; [reflexivity |]. split; [reflexivity |]. split.
    - intros [-> | ->]; reflexivity.
    - intros ->. reflexivity. }
  unfold handlePlayerAction.
  destruct (pickEvent es ty (day g) (pick_draw d)); apply Hany.
Qed.

Lemma handlePlayerAction_valid_witness :
  validateState
    (handlePlayerAction day_five_catalog
       (GameState.mk Config.defaults 5 97 100 3) "play"
       (mkDraws (1 # 4) (1 # 2) (1 # 2) (9 # 10))) = true.
Proof.
  apply (handlePlayerAction_valid day_five_catalog
           (GameState.mk Config.defaults 5 97 100 3) "play"
           (mkDraws (1 # 4) (1 # 2) (1 # 2) (9 # 10))).
  vm_compute. reflexivity.
Defined.

Lemma incrementDay_config (g : GameState.t) :
  config (incrementDay g) = config g
  /\ consecutive_none (incrementDay g) = consecutive_none g.
Proof.
  unfold incrementDay. destruct (_ <? _); split; reflexivity.
Qed.

(** X16. [finishDay] compares with the literals 10 and 30.  In a game whose
    configuration has [bad_end_threshold] 10 and [max_days] 30, as the
    default one has, it shows exactly the ending that
    [checkEndingCondition] gives after the day was advanced, and goes on to
    the next day exactly when there is none.  Whatever the configuration,
    it goes on while the streak is below 10 and the day below 30. *)
Theorem finishDay_agrees (g : GameState.t) :
  (Config.bad_end_threshold (config g) = 10 ->
   Config.max_days (config g) = 30 ->
   finishDay g
   = (incrementDay g,
      match checkEndingCondition (incrementDay g) with
      | Some ending => ShowEnding (Some ending)
      | None => NextDay
      end))
  /\ (consecutive_none (incrementDay g) < 10 ->
      day (incrementDay g) < 30 ->
      finishDay g = (incrementDay g, NextDay)).
Proof.
  split.
  - intros Hbad Hmax. unfold finishDay, checkEndingCondition.
    destruct (incrementDay_config g) as [Hc _]. rewrite Hc, Hbad, Hmax.
    destruct (_ >=? 10); [reflexivity |].
    destruct (_ >=? 30); [| reflexivity].
    destruct (_ && _); [reflexivity |].
    destruct (_ >=? _); [reflexivity |].
    destruct (_ >=? _); reflexivity.
  - intros Hnone Hday. unfold finishDay.
    destruct (Z.geb_spec (consecutive_none (incrementDay g)) 10); [lia |].
    destruct (Z.geb_spec (day (incrementDay g)) 30); [lia | reflexivity].
Qed.

Lemma finishDay_agrees_witness :
  finishDay (GameState.mk Config.defaults 29 80 120000 0)
  = (GameState.mk Config.defaults 30 80 120000 0,
     ShowEnding (Some "perfect_end"%string))
  /\ finishDay
       (GameState.mk
          (Config.mk 100000 70 10 3 30 5000 2000 5 3) 10 80 120000 5)
     = (GameState.mk
          (Config.mk 100000 70 10 3 30 5000 2000 5 3) 10 80 120000 5,
        NextDay).
Proof.
  destruct (finishDay_agrees (GameState.mk Config.defaults 29 80 120000 0))
    as (Hdefault & _).
  destruct (finishDay_agrees
              (GameState.mk
                 (Config.mk 100000 70 10 3 30 5000 2000 5 3) 10 80 120000 5))
    as (_ & Hother).
  split.
  - apply Hdefault; reflexivity.
  - apply Hother; vm_compute; reflexivity.
Defined.

(** ** Loading the catalog *)

Lemma pickEvent_not_ready (es : EventSystem.t) (ty : string) (day : Z) (r : Q) :
  isReady es = false -> pickEvent es ty day r = None.
Proof.
  unfold isReady, pickEvent. destruct (isLoaded es); [| reflexivity].
  destruct (events es) as [| x rest]; [reflexivity |].
  cbn [andb].
  rewrite (proj2 (Z.ltb_lt 0 (Z.of_nat (List.length (x :: rest)))))
    by (cbn [List.length]; lia).
  discriminate.
Qed.

(** X17. After [loadEvents] the catalog is marked loaded in every case.  The
    promise resolves to false exactly when the fetch failed, and then the
    catalog is the fallback one and the system is ready.  The system is not
    ready exactly when a document was fetched whose [events] are missing or
    empty: no fallback is used then, and [pickEvent] returns nothing for
    every type, day and draw. *)
Theorem loadEvents_outcomes (es : EventSystem.t) (f : Fetched) :
  let es' := fst (loadEvents es f) in
  isLoaded es' = true
  /\ (snd (loadEvents es f) = false <-> f = Failed)
  /\ (f = Failed -> events es' = getFallbackEvents /\ isReady es' = true)
  /\ (isReady es' = false
      <-> f = Document None \/ f = Document (Some []))
  /\ (isReady es' = false ->
      forall ty day r, pickEvent es' ty day r = None).
Proof.
  cbv zeta. split; [destruct f; reflexivity |].
  split; [destruct f; cbn; split; congruence |].
  split; [intros ->; split; reflexivity |].
  split.
  - destruct f as [| [[| x rest] |]]; cbn.
    + split; [discriminate | intros [H | H]; discriminate].
    + split; [intros _; right; reflexivity | reflexivity].
    + split; [| intros [H | H]; discriminate].
      discriminate.
    + split; [intros _; left; reflexivity | reflexivity].
  - intros Hnot ty day r. apply pickEvent_not_ready. exact Hnot.
Qed.

Lemma loadEvents_outcomes_witness :
  events (fst (loadEvents newEventSystem Failed)) = getFallbackEvents
  /\ isReady (fst (loadEvents newEventSystem Failed)) = true
  /\ pickEvent (fst (loadEvents newEventSystem (Document None)))
               "play" 1 (1 # 2) = None.
Proof.
  destruct (loadEvents_outcomes newEventSystem Failed)
    as (_ & _ & Hfallback & _).
  destruct (loadEvents_outcomes newEventSystem (Document None))
    as (_ & _ & _ & Hready & Hnone).
  destruct (Hfallback eq_refl) as [Hev Hrd].
  split; [exact Hev |]. split; [exact Hrd |].
  apply Hnone. apply Hready. left. reflexivity.
Defined.

(** X18. On the fallback catalog every one of the three action types is
    served on every day and for every draw in [0, 1): [pickEvent] returns an
    event of the requested type, and the effects computed from it are its
    base deltas, an affection delta within [-1, 5] and a money delta
    within [0, 6000]. *)
Theorem fallback_catalog_serves
    (es : EventSystem.t) (ty : string) (day : Z) (r ra rm : Q) :
  In ty ["play"; "work"; "none"]%string -> Js.unit_range r ->
  exists e da dm,
    pickEvent (fst (loadEvents es Failed)) ty day r = Some e
    /\ type e = ty
    /\ calculateEventEffects (Some e) ra rm = Effects.mk (Some da) (Some dm)
    /\ affection_delta e = Some da /\ money_delta e = Some dm
    /\ -1 <= da <= 5 /\ 0 <= dm <= 6000.
Proof.
  intros Hty Hr.
  assert (Hpool : exists a b,
            pickEvent (fst (loadEvents es Failed)) ty day r
            = selectWeightedRandom [a; b] r
            /\ forall e0, In e0 [a; b] ->
                 type e0 = ty /\ type (adjust e0) = ty
                 /\ exists da dm,
                      affection_delta e0 = Some da
                      /\ money_delta e0 = Some dm
                      /\ (forall e, e = e0 \/ e = adjust e0 ->
                            calculateEventEffects (Some e) ra rm
                            = Effects.mk (Some da) (Some dm))
                      /\ -1 <= da <= 5 /\ 0 <= dm <= 6000).
  { cbn [In] in Hty.
    destruct Hty as [<- | [<- | [<- | []]]];
      (eexists; eexists; split; [reflexivity |]);
      intros e0 [<- | [<- | []]];
      (split; [reflexivity |]); (split; [reflexivity |]);
      eexists; eexists;
      (split; [reflexivity |]); (split; [reflexivity |]);
      (split; [intros e [-> | ->]; reflexivity |]);
      split; lia. }
  destruct Hpool as (a & b & Hpick & Hmembers).
  destruct (selectWeightedRandom_member [a; b] r Hr)
    as (e & e0 & Hsel & Hin & Hrel); [discriminate |].
  destruct (Hmembers e0 Hin) as (Ht & Hta & da & dm & Hda & Hdm & Heff & Hb).
  exists e, da, dm. rewrite Hpick, Hsel.
  split; [reflexivity |].
  split; [destruct Hrel as [-> | ->]; assumption |].
  split; [apply Heff; exact Hrel |].
  split; [destruct Hrel as [-> | ->]; assumption |].
  split; [destruct Hrel as [-> | ->]; assumption |].
  exact Hb.
Qed.

Lemma fallback_catalog_serves_witness :
  exists e da dm,
    pickEvent (fst (loadEvents newEventSystem Failed)) "work" 12 (7 # 10)
    = Some e
    /\ type e = "work"%string
    /\ calculateEventEffects (Some e) (1 # 2) (1 # 2)
       = Effects.mk (Some da) (Some dm)
    /\ affection_delta e = Some da /\ money_delta e = Some dm
    /\ -1 <= da <= 5 /\ 0 <= dm <= 6000.
Proof.
  apply (fallback_catalog_serves newEventSystem "work" 12
           (7 # 10) (1 # 2) (1 # 2)).
  - right. left. reflexivity.
  - split; vm_compute; congruence.
Defined.

(** X19. [getEventCount] is never negative, and it is 0 exactly when the
    catalog is not loaded or holds no event of the type; [pickEvent] then
    returns nothing for that type, whatever the day and the draw. *)
Theorem getEventCount_zero_iff (es : EventSystem.t) (ty : string) :
  0 <= getEventCount es ty
  /\ (getEventCount es ty = 0
      <-> isLoaded es = false
          \/ forall x, In x (events es) -> type x <> ty)
  /\ (getEventCount es ty = 0 ->
      forall day r, pickEvent es ty day r = None).
Proof.
  unfold getEventCount, pickEvent.
  destruct (isLoaded es); cbn [negb].
  - remember (filter (fun e => (type e =? ty)%string) (events es))
      as typeEvents eqn:HT.
    assert (Hsub : forall x, In x typeEvents <->
                     In x (events es) /\ type x = ty).
    { intros x. subst typeEvents. rewrite filter_In, String.eqb_eq. tauto. }
    destruct typeEvents as [| t0 trest].
    + split; [cbn; lia |]. split; [| reflexivity].
      split; [| reflexivity]. intros _. right. intros x Hin Hxty.
      apply (proj2 (Hsub x)). split; assumption.
    + split; [lia |]. split.
      * split; [cbn [List.length]; lia |].
        intros [Hoff | Hnone]; [discriminate |]. exfalso.
        destruct (proj1 (Hsub t0) (or_introl eq_refl)) as [Hin Hty0].
        exact (Hnone t0 Hin Hty0).
      * cbn [List.length]. lia.
  - split; [lia |]. split; [| reflexivity].
    split; [intros _; left; reflexivity | reflexivity].
Qed.

Lemma getEventCount_zero_iff_witness :
  pickEvent day_five_catalog "work" 3 (1 # 2) = None.
Proof.
  destruct (getEventCount_zero_iff day_five_catalog "work")
    as (_ & _ & Hnone).
  apply Hnone. vm_compute. reflexivity.
Defined.

(** ** Changing the configuration *)

(** X20. [updateConfig] writes the configuration only and does not clamp the
    state again: keys that are not given keep their values, and a valid
    state stays valid exactly when the day is not above a newly given
    [max_days]. *)
Theorem updateConfig_valid_iff (g : GameState.t) (p : Config.patch) :
  validateState g = true ->
  day (updateConfig g p) = day g
  /\ affection (updateConfig g p) = affection g
  /\ money (updateConfig g p) = money g
  /\ consecutive_none (updateConfig g p) = consecutive_none g
  /\ (Config.p_max_days p = None ->
      Config.max_days (config (updateConfig g p))
      = Config.max_days (config g))
  /\ (validateState (updateConfig g p) = true
      <-> match Config.p_max_days p with
          | Some m => day g <= m
          | None => True
          end).
Proof.
  intros Hvalid. apply validateState_spec in Hvalid
    as (Hday & Haff & Hmoney & Hnone).
  repeat (split; [reflexivity |]).
  split; [intros Hp; cbn; rewrite Hp; reflexivity |].
  rewrite validateState_spec. cbn.
  destruct (Config.p_max_days p) as [m |]; cbn; split; intros;
    first [lia | exact I].
Qed.

Lemma updateConfig_valid_iff_witness :
  validateState
    (updateConfig (GameState.mk Config.defaults 12 50 0 0)
       (Config.mk_patch None None (Some 12) None None None None None None))
  = true.
Proof.
  destruct (updateConfig_valid_iff
              (GameState.mk Config.defaults 12 50 0 0)
              (Config.mk_patch None None (Some 12) None None
                               None None None None))
    as (_ & _ & _ & _ & _ & Hiff); [vm_compute; reflexivity |].
  apply Hiff. vm_compute. discriminate.
Defined.

Lemma constructor_valid_iff_witness :
  validateState
    (constructor
       (Config.mk_patch None None (Some 7) None (Some 100)
                        None None None None)) = true.
Proof.
  apply constructor_valid_iff. vm_compute. repeat split; discriminate.
Defined.

Lemma isGameOver_iff_witness :
  isGameOver (GameState.mk Config.defaults 4 50 0 10) = true.
Proof.
  apply isGameOver_iff. left. vm_compute. discriminate.
Defined.
